(** * Aetherwear core: the six-layer GeometricEngine

    A shallow embedding of [src/Aetherwear_core/__init__.py].

    - A Python [str] is the [string] of the bytes of its UTF-8 encoding.
      [in] on strings is [contains]: an ASCII keyword occurs in a text
      exactly when its bytes occur in the encoding.  [s[:n]] keeps the
      first [n] code points ([str_prefix]).
    - [str.lower] and [sorted] belong to the interpreter: an [Interpreter]
      is any pair of such functions with what every Python guarantees of
      them.  [str.lower] lowers ASCII text letter by letter; what it does
      to other text (special casing, the Unicode version) is left open.
      [sorted] returns a rearrangement of its input, the stable
      descending one when [<] orders the keys (no NaN among them).
    - Python [float] is the kernel's IEEE-754 binary64 [float]; every
      literal of the source is the same decimal literal here, rounded to
      the nearest double exactly as the Python parser does.
    - A [dict] is an association list in insertion order (iteration order,
      the order of [sum(d.values())] and the stability of [sorted] all
      depend on it).
    - [list(set(xs))] enumerates the distinct elements of [xs] in an order
      fixed by the interpreter's string hashing; it is a [SetOrder], any
      duplicate-free enumeration.
    - [sum] over floats is a left fold up to CPython 3.11 and Neumaier's
      compensated sum from CPython 3.12 on; both are modelled
      ([SumAlgorithm]).
    - [max] of an empty sequence raises [ValueError]: the layers from
      Metatron's Cube on return an [option].  [process] ends in an
      [Exception] or a [GeometricResult].
    - The coroutines never suspend; they are plain functions. *)

From Stdlib Require Import List String Ascii Bool Arith ZArith QArith Qabs Lia.
From Stdlib Require Import Permutation Sorted.
From Stdlib Require Import Floats Uint63.
Import ListNotations.

Set Warnings "-inexact-float".

Local Open Scope string_scope.
Local Open Scope list_scope.

(** ** Orders on keys *)

(** [a > b] as [max] and [sorted] test it on float keys. *)
Definition float_gt (a b : float) : bool := (b <? a)%float.

(** [gt] orders the keys [ks] as a strict weak order.  For [float_gt] this
    holds of any keys without a NaN. *)
Definition strict_weak {K} (gt : K -> K -> bool) (ks : list K) : Prop :=
  (forall a, In a ks -> gt a a = false) /\
  (forall a b c, In a ks -> In b ks -> In c ks ->
                 gt a b = true -> gt b c = true -> gt a c = true) /\
  (forall a b c, In a ks -> In b ks -> In c ks ->
                 gt a b = false -> gt b c = false -> gt a c = false).

(** ** Python builtins *)

Module Py.

(** [needle in hay] for two strings. *)
Fixpoint contains (needle hay : string) : bool :=
  if prefix needle hay then true
  else match hay with
       | EmptyString => false
       | String _ rest => contains needle rest
       end.

Definition lower_char (c : ascii) : ascii :=
  let n := nat_of_ascii c in
  if (65 <=? n)%nat && (n <=? 90)%nat then ascii_of_nat (n + 32) else c.

(** [s.lower()] for ASCII text: the letters A to Z are lowered and every
    other character is kept. *)
Fixpoint ascii_lower (s : string) : string :=
  match s with
  | EmptyString => EmptyString
  | String c rest => String (lower_char c) (ascii_lower rest)
  end.

(** [s.isascii()]: every byte is below 128. *)
Definition is_ascii_char (c : ascii) : bool :=
  match c with
  | Ascii _ _ _ _ _ _ _ high => negb high
  end.

Fixpoint is_ascii (s : string) : bool :=
  match s with
  | EmptyString => true
  | String c rest => is_ascii_char c && is_ascii rest
  end.

(** A byte [10xxxxxx] continues the code point begun before it. *)
Definition is_continuation (c : ascii) : bool :=
  match c with
  | Ascii _ _ _ _ _ _ b6 b7 => b7 && negb b6
  end.

(** [len(s)]: the number of code points, one for each byte that is not a
    continuation byte. *)
Fixpoint len (s : string) : nat :=
  match s with
  | EmptyString => 0
  | String c rest => if is_continuation c then len rest else S (len rest)
  end.

(** [any(p(x) for x in xs)] and [x in xs] for a list of strings. *)
Definition any {A} (p : A -> bool) (xs : list A) : bool := existsb p xs.

Definition mem (x : string) (xs : list string) : bool :=
  existsb (String.eqb x) xs.

(** [sep.join(xs)] *)
Definition join (sep : string) (xs : list string) : string :=
  String.concat sep xs.

(** [s[:n]]: the first [n] code points.  The bytes are kept up to the
    byte that begins code point [n + 1]. *)
Fixpoint str_prefix (n : nat) (s : string) : string :=
  match s with
  | EmptyString => EmptyString
  | String c rest =>
      if is_continuation c then String c (str_prefix n rest)
      else match n with
           | O => EmptyString
           | S n' => String c (str_prefix n' rest)
           end
  end.

(** [d.get(k, default)] on a dict with string keys. *)
Fixpoint get {V} (d : list (string * V)) (k : string) (default : V) : V :=
  match d with
  | [] => default
  | (k', v) :: rest => if String.eqb k k' then v else get rest k default
  end.

(** [k in d] *)
Definition has_key {V} (d : list (string * V)) (k : string) : bool :=
  existsb (fun kv => String.eqb k (fst kv)) d.

(** [float(n)] for a length or a count. *)
Definition of_nat (n : nat) : float :=
  PrimFloat.of_uint63 (Uint63.of_Z (Z.of_nat n)).

(** [min(a, b)] and [max(a, b)]: the first argument is kept unless the
    second is strictly smaller (resp. greater). *)
Definition min (a b : float) : float := if (b <? a)%float then b else a.
Definition max (a b : float) : float := if (a <? b)%float then b else a.

(** [max(xs, key=key)]: the running best is replaced only by a strictly
    greater key, so the first maximal element wins; [None] stands for the
    [ValueError] on an empty sequence.  The comparison is a parameter so
    that the selection rule can be studied on its own. *)
Section MaxBy.
Context {A K : Type} (gt : K -> K -> bool) (key : A -> K).

Fixpoint max_from (best : A) (xs : list A) : A :=
  match xs with
  | [] => best
  | x :: rest => max_from (if gt (key x) (key best) then x else best) rest
  end.

Definition max_by (xs : list A) : option A :=
  match xs with
  | [] => None
  | x :: rest => Some (max_from x rest)
  end.
End MaxBy.

(** [sum(xs)] for floats.  The start value is the integer 0 and the first
    item is added to it with [+]; the remaining items are added one by one,
    plainly (CPython up to 3.11, [LeftFold]) or with Neumaier's running
    compensation [c], which is added at the end when it is finite and not
    zero (CPython 3.12 and later, [Neumaier]). *)
Inductive SumAlgorithm := LeftFold | Neumaier.

Fixpoint neumaier (f c : float) (xs : list float) : float :=
  match xs with
  | [] => if (c =? 0)%float || is_nan c || is_infinity c then f else (f + c)%float
  | x :: rest =>
      let t := (f + x)%float in
      let c' := if (abs x <=? abs f)%float
                then (c + ((f - t) + x))%float
                else (c + ((x - t) + f))%float in
      neumaier t c' rest
  end.

Definition sum (alg : SumAlgorithm) (xs : list float) : float :=
  match xs with
  | [] => 0%float
  | x :: rest =>
      match alg with
      | LeftFold => fold_left PrimFloat.add rest (0 + x)%float
      | Neumaier => neumaier (0 + x)%float 0%float rest
      end
  end.

(** The stable descending arrangement of items by their float key: no
    item stands before one of strictly greater key, and items of equal key
    keep their original order. *)
Fixpoint insert_desc {A} (x : A * float) (l : list (A * float)) : list (A * float) :=
  match l with
  | [] => [x]
  | y :: rest =>
      if (snd x <? snd y)%float then y :: insert_desc x rest else x :: l
  end.

Definition stable_desc {A} (l : list (A * float)) : list (A * float) :=
  fold_right insert_desc [] l.

(** What the engine takes from the interpreter.

    [lower] is [str.lower]; on ASCII text it is [ascii_lower].

    [sorted_desc items] is [sorted(items, key=lambda x: x[1], reverse=True)]
    for the items of a dict with string keys.  The result is always a
    rearrangement of [items]; when [<] orders the keys as a strict weak
    order it is the stable descending arrangement.  With a NaN among the
    keys the arrangement depends on the comparisons the sorting algorithm
    happens to make, and is left open. *)
Record Interpreter := {
  lower : string -> string;
  lower_ascii : forall s, is_ascii s = true -> lower s = ascii_lower s;
  sorted_desc : list (string * float) -> list (string * float);
  sorted_desc_perm : forall items, Permutation (sorted_desc items) items;
  sorted_desc_stable :
    forall items,
      strict_weak float_gt (map snd items) -> sorted_desc items = stable_desc items
}.

(** Exceptions the engine can end in.  [AttributeError t a] reads
    "'t' object has no attribute 'a'". *)
Inductive Exception :=
| ValueError
| AttributeError (type_name attribute : string).

(** [list(set(xs))]: an enumeration without repetition of the elements of
    [xs]; the order is whatever the hash table yields. *)
Record SetOrder := {
  list_set : list string -> list string;
  list_set_nodup : forall xs, NoDup (list_set xs);
  list_set_in : forall xs x, In x (list_set xs) <-> In x xs
}.

(** First-occurrence order, one such enumeration. *)
Fixpoint dedup (xs : list string) : list string :=
  match xs with
  | [] => []
  | x :: rest => x :: filter (fun y => negb (String.eqb x y)) (dedup rest)
  end.

End Py.

(** ** Data model *)

(** The blueprint dict built by [_generate_blueprint]. *)
Record Blueprint := {
  strategy : string;
  focus_patterns : list string;
  approach : string;
  key_actions : list string;
  expected_outcome : string;
  risk_level : string
}.

(** The network dict built by [_flower_of_life_layer]. *)
Record Network := {
  nodes : list (string * float);
  connections : list ((string * string) * float);
  central_patterns : list string;
  network_density : float
}.

(** One entry of [evaluated_solutions] in [_metatrons_cube_layer]. *)
Record EvaluatedSolution := {
  solution : Blueprint;
  scores : list (string * float);
  overall_score : float;
  risks : list string;
  recommendations : list string
}.

(** The dict returned by [_conscious_field_layer], the FinalDecision of
    the specification. *)
Record FinalDecision := {
  final_decision : string;
  confidence : float;
  fd_risks : list string;
  fd_recommendations : list string;
  geometric_balance : list (string * float)
}.

(** [GeometricResult] without [analysis_id] and [processing_time], which
    are readings of the event-loop clock. *)
Record GeometricResult := {
  gr_query : string;
  gr_domain : string;
  gr_final_decision : string;
  gr_confidence : float;
  gr_risks : list string;
  gr_recommendations : list string;
  gr_geometric_balance : list (string * float)
}.

(** ** The engine *)

Section GeometricEngine.

(** What the interpreter fixes: [str.lower] and [sorted], the iteration
    order of string sets and the summation algorithm of [sum]. *)
Variable py : Py.Interpreter.
Variable order : Py.SetOrder.
Variable alg : Py.SumAlgorithm.

(** The type of the values of the [context] dict; no layer looks at them. *)
Variable ContextValue : Type.

(** *** Helper methods *)

Definition theme_keywords : list (string * list string) :=
  [ ("profit", ["profit"; "revenue"; "income"; "money"]);
    ("growth", ["grow"; "expand"; "scale"; "increase"]);
    ("cost", ["cost"; "save"; "cut"; "reduce"; "efficient"]);
    ("risk", ["risk"; "danger"; "problem"; "issue"]);
    ("opportunity", ["opportunity"; "potential"; "possibility"]) ].

(** The loop of [_extract_themes] over an already lower-cased query. *)
Definition matching_themes (query_lower : string) : list string :=
  map fst
    (filter (fun tk => Py.any (fun keyword => Py.contains keyword query_lower) (snd tk))
            theme_keywords).

Definition _extract_themes (query : string) : list string :=
  let query_lower := Py.lower py query in
  let themes := matching_themes query_lower in
  match themes with
  | [] => ["general"]
  | _ => themes
  end.

Definition insights_table : list (string * string) :=
  [ ("profit", "Financial outcomes should balance short-term gains with long-term sustainability");
    ("growth", "Sustainable growth requires solid foundations and careful planning");
    ("cost", "Cost optimization should not compromise quality or future capabilities");
    ("risk", "Risk management is essential but should not stifle innovation");
    ("opportunity", "New opportunities should align with core strengths and values") ].

Definition _generate_insight (theme : string) (context : list (string * ContextValue)) : string :=
  Py.get insights_table theme "Consider multiple perspectives and long-term impacts".

Definition pattern_indicators : list (string * list string) :=
  [ ("growth_expansion", ["grow"; "expand"; "increase"; "scale"; "more"]);
    ("stability_structure", ["stable"; "secure"; "foundation"; "reliable"]);
    ("connection_relationship", ["connect"; "relationship"; "partner"; "collaborate"]);
    ("innovation_creativity", ["innovate"; "create"; "new"; "invent"; "breakthrough"]);
    ("efficiency_optimization", ["efficient"; "optimize"; "streamline"; "improve"]);
    ("risk_challenge", ["risk"; "problem"; "challenge"; "threat"; "danger"]);
    ("opportunity_potential", ["opportunity"; "potential"; "possibility"; "future"]) ].

(** [sum(1 for indicator in indicators if indicator in insight.lower())] *)
Definition count_matches (insight : string) (indicators : list string) : nat :=
  List.length
    (filter (fun indicator => Py.contains indicator (Py.lower py insight)) indicators).

Definition _calculate_pattern_strength (insight pattern : string) : float :=
  let indicators := Py.get pattern_indicators pattern [] in
  let matches := count_matches insight indicators in
  Py.min (Py.of_nat matches / Py.of_nat (Nat.max (List.length indicators) 1)) 1.0.

Definition complementary_pairs : list (string * string) :=
  [ ("growth_expansion", "stability_structure");
    ("innovation_creativity", "efficiency_optimization");
    ("risk_challenge", "opportunity_potential") ].

Definition pair_in (ab : string * string) (l : list (string * string)) : bool :=
  existsb (fun p => String.eqb (fst ab) (fst p) && String.eqb (snd ab) (snd p)) l.

Definition _calculate_connection_strength
    (pattern_a pattern_b : string) (patterns : list (string * float)) : float :=
  let base_strength :=
    if pair_in (pattern_a, pattern_b) complementary_pairs
       || pair_in (pattern_b, pattern_a) complementary_pairs
    then 0.8%float else 0.3%float in
  let strength_a := Py.get patterns pattern_a 0%float in
  let strength_b := Py.get patterns pattern_b 0%float in
  (base_strength * (strength_a + strength_b) / 2)%float.

Definition _get_strategy_approach (strategy : string) : string :=
  Py.get
    [ ("aggressive", "Rapid implementation with high potential returns");
      ("balanced", "Measured approach considering multiple factors");
      ("conservative", "Cautious implementation minimizing risks");
      ("innovative", "Creative solutions exploring new possibilities");
      ("efficient", "Optimized approach maximizing resource usage") ]
    strategy "Balanced approach".

Definition base_actions : list (string * list string) :=
  [ ("aggressive", ["Implement quickly"; "Allocate maximum resources"; "Set ambitious targets"]);
    ("balanced", ["Plan carefully"; "Balance resources"; "Set realistic targets"]);
    ("conservative", ["Test thoroughly"; "Allocate minimal resources"; "Set cautious targets"]);
    ("innovative", ["Explore new methods"; "Encourage creativity"; "Accept calculated risks"]);
    ("efficient", ["Optimize processes"; "Measure everything"; "Eliminate waste"]) ].

Definition pattern_actions : list (string * list string) :=
  [ ("growth_expansion", ["Focus on market expansion"; "Increase capacity"]);
    ("stability_structure", ["Strengthen foundations"; "Build resilience"]);
    ("innovation_creativity", ["Invest in R&D"; "Encourage innovation"]) ].

(** The list [actions] of [_generate_actions] when its loop ends: the base
    actions of the strategy, extended by the actions of every pattern of
    [patterns] that has an entry in [pattern_actions]. *)
Definition collected_actions (strategy : string) (patterns : list string) : list string :=
  fold_left
    (fun actions pattern =>
       if Py.has_key pattern_actions pattern
       then actions ++ Py.get pattern_actions pattern []
       else actions)
    patterns
    (Py.get base_actions strategy []).

Definition _generate_actions (strategy : string) (patterns : list string) : list string :=
  firstn 5 (Py.list_set order (collected_actions strategy patterns)).

Definition _evaluate_action_focus (solution : Blueprint) : float :=
  let strategy := strategy solution in
  if String.eqb strategy "aggressive" then 0.9%float
  else if String.eqb strategy "balanced" then 0.7%float
  else 0.5%float.

Definition _evaluate_stability (solution : Blueprint) : float :=
  let risk_level := risk_level solution in
  if String.eqb risk_level "low" then 0.9%float
  else if String.eqb risk_level "medium" then 0.7%float
  else 0.4%float.

Definition _evaluate_clarity (solution : Blueprint) : float :=
  let actions := key_actions solution in
  Py.min (Py.of_nat (List.length actions) * 0.2) 1.0.

Definition _evaluate_adaptability (solution : Blueprint) : float :=
  let strategy := strategy solution in
  if Py.mem strategy ["balanced"; "innovative"] then 0.8%float else 0.5%float.

Definition _evaluate_purpose (solution : Blueprint) : float :=
  let patterns := focus_patterns solution in
  if Py.mem "opportunity_potential" patterns || Py.mem "innovation_creativity" patterns
  then 0.9%float else 0.6%float.

(** [xs.append(msg)] under [if scores.get(key, 0) < bound]. *)
Definition append_if_below
    (scores : list (string * float)) (key : string) (bound : float) (msg : string)
    (xs : list string) : list string :=
  if (Py.get scores key 0 <? bound)%float then xs ++ [msg] else xs.

Definition _identify_risks (scores : list (string * float)) : list string :=
  let risks := [] in
  let risks := append_if_below scores "action_focus" 0.3 "Lacks clear action plan" risks in
  let risks := append_if_below scores "stability_foundation" 0.3 "High instability risk" risks in
  let risks := append_if_below scores "clarity_logic" 0.3 "Unclear implementation path" risks in
  let risks := append_if_below scores "adaptability_empathy" 0.3 "Inflexible to changes" risks in
  let risks := append_if_below scores "purpose_potential" 0.3 "Limited long-term potential" risks in
  match risks with
  | [] => ["Low to moderate risks identified"]
  | _ => risks
  end.

Definition _generate_recommendations (scores : list (string * float)) : list string :=
  let recs := [] in
  let recs := append_if_below scores "action_focus" 0.7 "Define clearer action steps" recs in
  let recs := append_if_below scores "stability_foundation" 0.7 "Strengthen foundational elements" recs in
  let recs := append_if_below scores "clarity_logic" 0.7 "Improve plan clarity and logic" recs in
  let recs := append_if_below scores "adaptability_empathy" 0.7
                "Increase flexibility and consideration of impacts" recs in
  let recs := append_if_below scores "purpose_potential" 0.7
                "Enhance long-term strategic alignment" recs in
  match recs with
  | [] => ["Well-balanced approach"]
  | _ => recs
  end.

Definition _find_central_patterns
    (patterns : list (string * float)) (connections : list ((string * string) * float))
    : list string :=
  let sorted_patterns := Py.sorted_desc py patterns in
  map fst (firstn 3 sorted_patterns).

Definition _calculate_network_density (connections : list ((string * string) * float)) : float :=
  match connections with
  | [] => 0.0%float
  | _ => (Py.sum alg (map snd connections) / Py.of_nat (List.length connections))%float
  end.

Definition _apply_domain_knowledge (domain : string) (decision : EvaluatedSolution)
    : FinalDecision :=
  let business :=
    ("Business strategy: " ++ expected_outcome (solution decision))%string in
  let domain_insights :=
    [ ("business", business);
      ("personal", "Personal decision: Consider life balance and long-term happiness");
      ("ecological", "Ecological approach: Prioritize sustainability and system health") ] in
  let domain_info := Py.get domain_insights domain business in
  {| final_decision := domain_info;
     confidence := overall_score decision;
     fd_risks := risks decision;
     fd_recommendations := recommendations decision;
     geometric_balance := scores decision |}.

(** The line [_learn_from_analysis] hands to the logger. *)
Definition _learn_from_analysis (query : string) (decision : EvaluatedSolution) (domain : string)
    : string :=
  ("Learned from " ++ domain ++ " analysis: " ++ Py.str_prefix 50 query ++ "...")%string.

(** *** The six layers *)

Definition _vesica_piscis_layer (query : string) (context : list (string * ContextValue))
    : list string :=
  let themes := _extract_themes query in
  fold_left
    (fun insights theme =>
       let insight := _generate_insight theme context in
       if String.eqb insight "" then insights else insights ++ [insight])
    themes [].

Definition initial_patterns : list (string * float) :=
  [ ("growth_expansion", 0.0%float);
    ("stability_structure", 0.0%float);
    ("connection_relationship", 0.0%float);
    ("innovation_creativity", 0.0%float);
    ("efficiency_optimization", 0.0%float);
    ("risk_challenge", 0.0%float);
    ("opportunity_potential", 0.0%float) ].

(** The inner loop of [_seed_of_life_layer]: every key is updated in place. *)
Definition absorb_insight (patterns : list (string * float)) (insight : string)
    : list (string * float) :=
  map (fun kv =>
         let pattern := fst kv in
         let pattern_strength := _calculate_pattern_strength insight pattern in
         (pattern, Py.max (snd kv) pattern_strength))
      patterns.

Definition _seed_of_life_layer (insights : list string) : list (string * float) :=
  fold_left absorb_insight insights initial_patterns.

(** The double loop of [_flower_of_life_layer] over [enumerate(pattern_names)]. *)
Definition enumerate {A} (xs : list A) : list (nat * A) :=
  combine (seq 0 (List.length xs)) xs.

Definition all_connections (patterns : list (string * float))
    : list ((string * string) * float) :=
  let pattern_names := map fst patterns in
  flat_map
    (fun ia =>
       flat_map
         (fun jb =>
            if Nat.eqb (fst ia) (fst jb) then []
            else [ ((snd ia, snd jb),
                    _calculate_connection_strength (snd ia) (snd jb) patterns) ])
         (enumerate pattern_names))
    (enumerate pattern_names).

Definition _flower_of_life_layer (patterns : list (string * float)) : Network :=
  let connections := all_connections patterns in
  {| nodes := patterns;
     connections := connections;
     central_patterns := _find_central_patterns patterns connections;
     network_density := _calculate_network_density connections |}.

Definition _generate_blueprint (strategy : string) (network : Network) (query : string)
    : Blueprint :=
  let central_patterns := central_patterns network in
  {| strategy := strategy;
     focus_patterns := firstn 2 central_patterns;
     approach := _get_strategy_approach strategy;
     key_actions := _generate_actions strategy central_patterns;
     expected_outcome :=
       ("Balanced approach focusing on " ++ Py.join ", " (firstn 2 central_patterns))%string;
     risk_level :=
       if String.eqb strategy "balanced" then "medium"
       else if String.eqb strategy "aggressive" then "high"
       else "low" |}.

Definition strategy_types : list string :=
  ["aggressive"; "balanced"; "conservative"; "innovative"; "efficient"].

(** A blueprint is a dict of six entries, so [if blueprint] always holds. *)
Definition _fruit_of_life_layer (network : Network) (query : string) : list Blueprint :=
  map (fun strategy => _generate_blueprint strategy network query) strategy_types.

(** The body of the loop of [_metatrons_cube_layer]. *)
Definition evaluate (solution : Blueprint) : EvaluatedSolution :=
  let scores :=
    [ ("action_focus", _evaluate_action_focus solution);
      ("stability_foundation", _evaluate_stability solution);
      ("clarity_logic", _evaluate_clarity solution);
      ("adaptability_empathy", _evaluate_adaptability solution);
      ("purpose_potential", _evaluate_purpose solution) ] in
  let overall_score :=
    (Py.sum alg (map snd scores) / Py.of_nat (List.length scores))%float in
  {| solution := solution;
     scores := scores;
     overall_score := overall_score;
     risks := _identify_risks scores;
     recommendations := _generate_recommendations scores |}.

Definition _metatrons_cube_layer (solutions : list Blueprint) : option EvaluatedSolution :=
  let evaluated_solutions := map evaluate solutions in
  Py.max_by (fun a b => (b <? a)%float) (fun x => overall_score x) evaluated_solutions.

(** Layer 5 returns the decision dict and logs one line. *)
Definition _conscious_field_layer
    (decision : EvaluatedSolution) (query domain : string) : FinalDecision * list string :=
  let domain_wisdom := _apply_domain_knowledge domain decision in
  let log := [_learn_from_analysis query decision domain] in
  ({| final_decision := final_decision domain_wisdom;
      confidence := overall_score decision;
      fd_risks := risks decision;
      fd_recommendations := recommendations decision;
      geometric_balance := scores decision |}, log).

(** Layers 0 to 4. *)
Definition decide (query : string) (context : list (string * ContextValue))
    : option EvaluatedSolution :=
  let insights := _vesica_piscis_layer query context in
  let patterns := _seed_of_life_layer insights in
  let network := _flower_of_life_layer patterns in
  let solutions := _fruit_of_life_layer network query in
  _metatrons_cube_layer solutions.

(** [process] up to the [wisdom] dict: the FinalDecision of an analysis,
    or [None] when a layer raises. *)
Definition analyze (query domain : string) (context : list (string * ContextValue))
    : option FinalDecision :=
  match decide query context with
  | None => None
  | Some decision => Some (fst (_conscious_field_layer decision query domain))
  end.

(** [wisdom.name] for the dict [wisdom] and a name that is not one of the
    attributes of [dict]: the lookup raises, whatever the dict holds. *)
Definition getattr {A} (wisdom : FinalDecision) (name : string) : Py.Exception + A :=
  inl (Py.AttributeError "dict" name).

Definition bind {A B} (x : Py.Exception + A) (k : A -> Py.Exception + B)
    : Py.Exception + B :=
  match x with
  | inl e => inl e
  | inr a => k a
  end.

Notation "x <- e ;; k" := (bind e (fun x => k))
  (at level 61, e at next level, right associativity).

(** [process]: the lines logged and how the call ends.  The keyword
    arguments of [GeometricResult(...)] are evaluated in the order they
    are written, after layer 5 has logged its line; [wisdom.final_decision]
    is the first to read an attribute of [wisdom]. *)
Definition process (query domain : string) (context : list (string * ContextValue))
    : list string * (Py.Exception + GeometricResult) :=
  match decide query context with
  | None => ([], inl Py.ValueError)
  | Some decision =>
      let (wisdom, log) := _conscious_field_layer decision query domain in
      (log,
       final_decision <- getattr wisdom "final_decision" ;;
       confidence <- getattr wisdom "confidence" ;;
       risks <- getattr wisdom "risks" ;;
       recommendations <- getattr wisdom "recommendations" ;;
       geometric_balance <- getattr wisdom "geometric_balance" ;;
       inr {| gr_query := query;
              gr_domain := domain;
              gr_final_decision := final_decision;
              gr_confidence := confidence;
              gr_risks := risks;
              gr_recommendations := recommendations;
              gr_geometric_balance := geometric_balance |})
  end.

End GeometricEngine.

Arguments _generate_insight {ContextValue} theme context.
Arguments _vesica_piscis_layer py {ContextValue} query context.
Arguments decide py order alg {ContextValue} query context.
Arguments analyze py order alg {ContextValue} query domain context.
Arguments process py order alg {ContextValue} query domain context.

(** ** Auxiliary definitions for the statements *)

(** The exact rational value of a finite double. *)
Definition float_to_Q (f : float) : Q :=
  match Prim2SF f with
  | S754_finite s m e =>
      (if s then - inject_Z (Zpos m) else inject_Z (Zpos m)) * Qpower 2 e
  | _ => 0
  end.

Definition is_finite (f : float) : bool :=
  match Prim2SF f with
  | S754_finite _ _ _ | S754_zero _ => true
  | _ => false
  end.

(** [f] is a finite double within [eps] of the rational [q]. *)
Definition close_to (eps : Q) (f : float) (q : Q) : bool :=
  is_finite f && Qle_bool (Qabs (float_to_Q f - q)) eps.

(** One unit in the last place of a double in [[0.5, 1)]. *)
Definition ulp : Q := 1 # 9007199254740992.

(** All sub-sequences of a list, in the order of the list. *)
Fixpoint sublists {A} (l : list A) : list (list A) :=
  match l with
  | [] => [[]]
  | x :: rest => map (cons x) (sublists rest) ++ sublists rest
  end.

(** Every value [_extract_themes] can return: the 31 non-empty
    sub-sequences of the theme enumeration, and [["general"]]. *)
Definition possible_themes : list (list string) :=
  map (fun themes => match themes with [] => ["general"] | _ => themes end)
      (sublists (map fst theme_keywords)).

(** The insights of layer 0 for a list of themes. *)
Definition insights_of_themes (themes : list string) : list string :=
  fold_left
    (fun insights theme =>
       let insight := @_generate_insight unit theme [] in
       if String.eqb insight "" then insights else insights ++ [insight])
    themes [].

(** Two blueprints that differ at most in which actions [key_actions]
    lists, not in how many. *)
Definition same_plan (b1 b2 : Blueprint) : Prop :=
  strategy b1 = strategy b2 /\
  focus_patterns b1 = focus_patterns b2 /\
  approach b1 = approach b2 /\
  List.length (key_actions b1) = List.length (key_actions b2) /\
  expected_outcome b1 = expected_outcome b2 /\
  risk_level b1 = risk_level b2.

Definition same_eval (e1 e2 : EvaluatedSolution) : Prop :=
  same_plan (solution e1) (solution e2) /\
  scores e1 = scores e2 /\
  overall_score e1 = overall_score e2 /\
  risks e1 = risks e2 /\
  recommendations e1 = recommendations e2.

(** ** Facts about the builtins *)

Lemma dedup_in (xs : list string) (x : string) : In x (Py.dedup xs) <-> In x xs.
Proof.
  induction xs as [|y rest IH]; simpl; [tauto|].
  rewrite filter_In, IH.
  destruct (String.eqb_spec y x) as [->|Hne]; simpl; split; intros H; auto.
  - destruct H as [H|[H _]]; auto.
  - destruct H as [H|H]; [contradiction|auto].
Qed.

Lemma dedup_nodup (xs : list string) : NoDup (Py.dedup xs).
Proof.
  induction xs as [|y rest IH]; simpl; constructor.
  - rewrite filter_In. intros [_ H]. now rewrite String.eqb_refl in H.
  - now apply NoDup_filter.
Qed.

Lemma get_without_key {V} (d : list (string * V)) (k : string) (default : V) :
  Py.has_key d k = false -> Py.get d k default = default.
Proof.
  induction d as [|[k' v] rest IH]; simpl; [reflexivity|].
  destruct (String.eqb k k'); simpl; [discriminate|exact IH].
Qed.

(** [needle in hay], worded without the search: the text is
    [pre + needle + post]. *)
Definition occurs (needle hay : string) : Prop :=
  exists pre post, hay = (pre ++ needle ++ post)%string.

Lemma prefix_spec (needle hay : string) :
  prefix needle hay = true <-> exists post, hay = (needle ++ post)%string.
Proof.
  revert hay. induction needle as [|c needle IH]; intros hay.
  - split; [intros _; now exists hay|intros _; now destruct hay].
  - destruct hay as [|d hay]; simpl;
      [split; [discriminate|intros [post H]; discriminate]|].
    destruct (Ascii.ascii_dec c d) as [<-|Hne].
    + rewrite IH. split; intros [post H]; exists post; [now rewrite H|now injection H].
    + split; [discriminate|]. intros [post H]. congruence.
Qed.

Lemma contains_unfold (needle hay : string) :
  Py.contains needle hay =
  if prefix needle hay then true
  else match hay with
       | EmptyString => false
       | String _ rest => Py.contains needle rest
       end.
Proof. destruct hay; reflexivity. Qed.

(** [Py.contains] is the substring test. *)
Lemma contains_spec (needle hay : string) :
  Py.contains needle hay = true <-> occurs needle hay.
Proof.
  unfold occurs.
  induction hay as [|c hay IH]; rewrite contains_unfold.
  - destruct (prefix needle "") eqn:Hp.
    + apply prefix_spec in Hp. destruct Hp as [post Hp].
      split; [intros _; now exists "", post|reflexivity].
    + split; [discriminate|]. intros (pre & post & H).
      destruct pre; [|discriminate]. simpl in H.
      assert (Hp' : prefix needle "" = true) by (apply prefix_spec; now exists post).
      now rewrite Hp in Hp'.
  - destruct (prefix needle (String c hay)) eqn:Hp.
    + apply prefix_spec in Hp. destruct Hp as [post Hp].
      split; [intros _; now exists "", post|reflexivity].
    + rewrite IH. split.
      * intros (pre & post & ->). now exists (String c pre), post.
      * intros (pre & post & H). destruct pre as [|d pre].
        -- simpl in H.
           assert (Hp' : prefix needle (String c hay) = true)
             by (apply prefix_spec; now exists post).
           now rewrite Hp in Hp'.
        -- injection H as _ ->. now exists pre, post.
Qed.

Lemma string_app_assoc (a b c : string) : ((a ++ b) ++ c = a ++ b ++ c)%string.
Proof. induction a as [|x a IH]; simpl; [reflexivity|now rewrite IH]. Qed.

(** The set order that keeps first occurrences in place. *)
Definition insertion_order : Py.SetOrder :=
  {| Py.list_set := Py.dedup;
     Py.list_set_nodup := dedup_nodup;
     Py.list_set_in := dedup_in |}.

Lemma insert_desc_perm {A} (x : A * float) (l : list (A * float)) :
  Permutation (x :: l) (Py.insert_desc x l).
Proof.
  induction l as [|y rest IH]; simpl; [reflexivity|].
  destruct (snd x <? snd y)%float; [|reflexivity].
  rewrite perm_swap. now constructor.
Qed.

Lemma stable_desc_perm {A} (l : list (A * float)) :
  Permutation l (Py.stable_desc l).
Proof.
  induction l as [|x rest IH]; simpl; [reflexivity|].
  rewrite <- insert_desc_perm. now constructor.
Qed.

(** An interpreter for ASCII text: it lowers the letters A to Z and sorts
    by stable insertion.  Every interpreter agrees with it on ASCII text
    and on keys that [<] orders. *)
Definition ascii_interpreter : Py.Interpreter :=
  {| Py.lower := Py.ascii_lower;
     Py.lower_ascii := fun s _ => eq_refl;
     Py.sorted_desc := Py.stable_desc;
     Py.sorted_desc_perm := fun items => Permutation_sym (stable_desc_perm items);
     Py.sorted_desc_stable := fun items _ => eq_refl |}.

(** The layers from the extracted themes on.  The insights of the themes
    are ASCII text and their scores are ordered by [<], so every
    interpreter builds the network [network_themes]; [decide] is
    [decide_themes] at [_extract_themes query]. *)
Definition network_themes (alg : Py.SumAlgorithm) (themes : list string) : Network :=
  _flower_of_life_layer ascii_interpreter alg
    (_seed_of_life_layer ascii_interpreter (insights_of_themes themes)).

Definition decide_themes (order : Py.SetOrder) (alg : Py.SumAlgorithm) (themes : list string)
    : option EvaluatedSolution :=
  _metatrons_cube_layer alg (_fruit_of_life_layer order (network_themes alg themes) "").

Lemma list_set_length (o1 o2 : Py.SetOrder) (xs : list string) :
  List.length (Py.list_set o1 xs) = List.length (Py.list_set o2 xs).
Proof.
  apply Nat.le_antisymm; apply NoDup_incl_length; try apply Py.list_set_nodup;
    intros x Hx; apply Py.list_set_in; apply Py.list_set_in in Hx; exact Hx.
Qed.

Lemma generate_actions_length (o1 o2 : Py.SetOrder) (s : string) (ps : list string) :
  List.length (_generate_actions o1 s ps) = List.length (_generate_actions o2 s ps).
Proof.
  unfold _generate_actions. rewrite !length_firstn.
  now rewrite (list_set_length o1 o2).
Qed.

Lemma sublists_filter {A B} (f : A -> B) (p : A -> bool) (l : list A) :
  In (map f (filter p l)) (sublists (map f l)).
Proof.
  induction l as [|x rest IH]; simpl; [now left|].
  apply in_or_app. destruct (p x); simpl.
  - left. now apply in_map.
  - now right.
Qed.

Lemma extract_themes_possible (py : Py.Interpreter) (query : string) :
  In (_extract_themes py query) possible_themes.
Proof.
  unfold _extract_themes, possible_themes, matching_themes.
  apply (in_map (fun themes => match themes with [] => ["general"] | _ => themes end)).
  apply sublists_filter.
Qed.

(** ** Pattern scores are fractions *)

Definition pattern_names : list string := map fst initial_patterns.

Lemma get_cases {V} (d : list (string * V)) (k : string) (default : V) :
  Py.get d k default = default \/ In (k, Py.get d k default) d.
Proof.
  induction d as [|[k' v] rest IH]; simpl; [now left|].
  destruct (String.eqb_spec k k') as [->|Hne]; [right; now left|].
  destruct IH as [IH|IH]; [now left|right; now right].
Qed.

Lemma get_map_key {V} (f : string -> V) (names : list string) (p : string) (default : V) :
  In p names -> Py.get (map (fun k => (k, f k)) names) p default = f p.
Proof.
  induction names as [|k rest IH]; simpl; [contradiction|].
  intros Hin. destruct (String.eqb_spec p k) as [->|Hne]; [reflexivity|].
  apply IH. destruct Hin as [->|Hin]; [contradiction|exact Hin].
Qed.

(** The strength of a pattern with [n] indicators of which [k] match. *)
Definition ratio (n k : nat) : float :=
  Py.min (Py.of_nat k / Py.of_nat (Nat.max n 1)) 1.0.

(** The score [_seed_of_life_layer] leaves under one key. *)
Definition pattern_score (py : Py.Interpreter) (pattern : string) (insights : list string) : float :=
  fold_left Py.max
            (map (fun insight => _calculate_pattern_strength py insight pattern) insights)
            0%float.

(** The greatest number of matched indicators over the insights. *)
Definition best_count (py : Py.Interpreter) (indicators : list string) (insights : list string) : nat :=
  fold_left Nat.max (map (fun insight => count_matches py insight indicators) insights) 0%nat.

Lemma count_matches_le (py : Py.Interpreter) (insight : string) (indicators : list string) :
  (count_matches py insight indicators <= List.length indicators)%nat.
Proof. apply filter_length_le. Qed.

Lemma ratio_facts (n k k' : nat) :
  n = 4%nat \/ n = 5%nat -> (k <= n)%nat -> (k' <= n)%nat ->
  Py.max (ratio n k) (ratio n k') = ratio n (Nat.max k k') /\
  (ratio n k <=? ratio n k')%float = (k <=? k')%nat /\
  ratio n k = (Py.of_nat k / Py.of_nat n)%float /\
  ((0 <=? ratio n k) && (ratio n k <=? 1))%float = true.
Proof.
  intros [-> | ->] Hk Hk';
    do 6 (try destruct k as [|k]); try lia;
    do 6 (try destruct k' as [|k']); try lia;
    vm_compute; repeat split.
Qed.

Lemma fold_max_ratio (n : nat) (counts : list nat) :
  n = 4%nat \/ n = 5%nat ->
  Forall (fun k => (k <= n)%nat) counts ->
  forall k0, (k0 <= n)%nat ->
  fold_left Py.max (map (ratio n) counts) (ratio n k0) = ratio n (fold_left Nat.max counts k0)
  /\ (fold_left Nat.max counts k0 <= n)%nat.
Proof.
  intros Hn Hall. induction Hall as [|k rest Hk _ IH]; intros k0 Hk0; simpl; [auto|].
  destruct (ratio_facts n k0 k Hn Hk0 Hk) as (-> & _). apply IH. lia.
Qed.

Lemma fold_max_bounds (counts : list nat) :
  forall k0,
    (k0 <= fold_left Nat.max counts k0)%nat /\
    Forall (fun k => (k <= fold_left Nat.max counts k0)%nat) counts /\
    (fold_left Nat.max counts k0 = k0 \/ In (fold_left Nat.max counts k0) counts).
Proof.
  induction counts as [|k rest IH]; intros k0; simpl; [auto|].
  destruct (IH (Nat.max k0 k)) as (Hge & Hall & Hin). split; [lia|]. split.
  - constructor; [lia|exact Hall].
  - destruct Hin as [Hin|Hin]; [|now right; right].
    rewrite Hin. destruct (Nat.max_spec k0 k) as [[_ ->]|[_ ->]]; auto.
Qed.

Lemma absorb_closed_form (py : Py.Interpreter) (names : list string) (insights : list string) :
  forall acc : string -> float,
    fold_left (absorb_insight py) insights (map (fun p => (p, acc p)) names) =
    map (fun p => (p, fold_left Py.max
                        (map (fun insight => _calculate_pattern_strength py insight p) insights)
                        (acc p)))
        names.
Proof.
  induction insights as [|i rest IH]; intros acc; cbn [fold_left map]; [reflexivity|].
  unfold absorb_insight at 2. rewrite map_map. cbn [fst snd].
  apply (IH (fun p => Py.max (acc p) (_calculate_pattern_strength py i p))).
Qed.

Lemma seed_closed_form (py : Py.Interpreter) (insights : list string) :
  _seed_of_life_layer py insights =
  map (fun p => (p, pattern_score py p insights)) (map fst initial_patterns).
Proof.
  unfold _seed_of_life_layer, pattern_score.
  rewrite <- (absorb_closed_form py _ insights (fun _ => 0%float)). reflexivity.
Qed.

Lemma indicator_totals :
  Forall (fun p => let n := List.length (Py.get pattern_indicators p []) in
                   n = 4%nat \/ n = 5%nat)
         pattern_names.
Proof.
  unfold pattern_names. cbn [map fst initial_patterns].
  repeat (apply Forall_cons; [cbv; auto|]). apply Forall_nil.
Qed.

(** The score of one of the seven patterns in closed form: the greatest
    match count over the insights, divided by the number of indicators. *)
Lemma pattern_score_ratio (py : Py.Interpreter) (pattern : string) (insights : list string) :
  In pattern pattern_names ->
  let indicators := Py.get pattern_indicators pattern [] in
  let n := List.length indicators in
  (n = 4%nat \/ n = 5%nat) /\
  (best_count py indicators insights <= n)%nat /\
  pattern_score py pattern insights = ratio n (best_count py indicators insights).
Proof.
  intros Hin indicators n.
  pose proof indicator_totals as Hn. rewrite Forall_forall in Hn.
  specialize (Hn pattern Hin). fold indicators in Hn. fold n in Hn. cbv zeta in Hn.
  assert (Hcounts : Forall (fun k => (k <= n)%nat)
                           (map (fun insight => count_matches py insight indicators) insights)).
  { apply Forall_forall. intros k Hk. apply in_map_iff in Hk.
    destruct Hk as (i & <- & _). apply count_matches_le. }
  destruct (fold_max_ratio n _ Hn Hcounts 0%nat (Nat.le_0_l n)) as [Hfold Hle].
  split; [exact Hn|]. split; [exact Hle|].
  unfold pattern_score, best_count. rewrite <- Hfold, map_map.
  destruct (ratio_facts n 0 0 Hn (Nat.le_0_l n) (Nat.le_0_l n)) as (_ & _ & H0 & _).
  f_equal. destruct Hn as [Hn|Hn]; rewrite Hn; reflexivity.
Qed.

Lemma ratio_order (n k n' k' : nat) :
  n = 4%nat \/ n = 5%nat -> n' = 4%nat \/ n' = 5%nat ->
  (k <= n)%nat -> (k' <= n')%nat ->
  (ratio n k <? ratio n' k')%float = (k * n' <? k' * n)%nat /\
  (ratio n k <=? ratio n' k')%float = (k * n' <=? k' * n)%nat.
Proof.
  intros [-> | ->] [-> | ->] Hk Hk';
    do 6 (try destruct k as [|k]); try lia;
    do 6 (try destruct k' as [|k']); try lia;
    vm_compute; split; reflexivity.
Qed.

(** A double that is the strength of a pattern with four or five
    indicators. *)
Definition is_ratio (v : float) : Prop :=
  exists n k, (n = 4%nat \/ n = 5%nat) /\ (k <= n)%nat /\ v = ratio n k.

Lemma ratios_strict_weak (ks : list float) :
  Forall is_ratio ks -> strict_weak float_gt ks.
Proof.
  intros Hall. rewrite Forall_forall in Hall. unfold strict_weak, float_gt.
  repeat split.
  - intros a Ha. destruct (Hall a Ha) as (n & k & Hn & Hk & ->).
    destruct (ratio_order n k n k Hn Hn Hk Hk) as [-> _]. apply Nat.ltb_irrefl.
  - intros a b c Ha Hb Hc.
    destruct (Hall a Ha) as (na & ka & Hna & Hka & ->).
    destruct (Hall b Hb) as (nb & kb & Hnb & Hkb & ->).
    destruct (Hall c Hc) as (nc & kc & Hnc & Hkc & ->).
    destruct (ratio_order nb kb na ka Hnb Hna Hkb Hka) as [-> _].
    destruct (ratio_order nc kc nb kb Hnc Hnb Hkc Hkb) as [-> _].
    destruct (ratio_order nc kc na ka Hnc Hna Hkc Hka) as [-> _].
    rewrite !Nat.ltb_lt.
    destruct Hna as [-> | ->], Hnb as [-> | ->], Hnc as [-> | ->]; lia.
  - intros a b c Ha Hb Hc.
    destruct (Hall a Ha) as (na & ka & Hna & Hka & ->).
    destruct (Hall b Hb) as (nb & kb & Hnb & Hkb & ->).
    destruct (Hall c Hc) as (nc & kc & Hnc & Hkc & ->).
    destruct (ratio_order nb kb na ka Hnb Hna Hkb Hka) as [-> _].
    destruct (ratio_order nc kc nb kb Hnc Hnb Hkc Hkb) as [-> _].
    destruct (ratio_order nc kc na ka Hnc Hna Hkc Hka) as [-> _].
    rewrite !Nat.ltb_ge.
    destruct Hna as [-> | ->], Hnb as [-> | ->], Hnc as [-> | ->]; lia.
Qed.

Lemma seed_scores_are_ratios (py : Py.Interpreter) (insights : list string) :
  Forall (fun entry => In (fst entry) pattern_names /\ is_ratio (snd entry))
         (_seed_of_life_layer py insights).
Proof.
  rewrite seed_closed_form. apply Forall_forall. intros entry Hin.
  apply in_map_iff in Hin. destruct Hin as (p & <- & Hp). split; [exact Hp|].
  destruct (pattern_score_ratio py p insights Hp) as (Hn & Hle & Hs).
  cbn [snd]. rewrite Hs. eexists _, _. eauto.
Qed.

Lemma seed_strict_weak (py : Py.Interpreter) (insights : list string) :
  strict_weak float_gt (map snd (_seed_of_life_layer py insights)).
Proof.
  apply ratios_strict_weak. apply Forall_forall. intros v Hv.
  apply in_map_iff in Hv. destruct Hv as (entry & <- & Hin).
  pose proof (seed_scores_are_ratios py insights) as H. rewrite Forall_forall in H.
  apply (H entry Hin).
Qed.

Lemma seed_keys (py : Py.Interpreter) (insights : list string) :
  map fst (_seed_of_life_layer py insights) = pattern_names.
Proof. rewrite seed_closed_form, map_map. cbn [fst]. now rewrite map_id. Qed.

(** The network an analysis builds from its query. *)
Definition network_of {C} (py : Py.Interpreter) (alg : Py.SumAlgorithm)
    (query : string) (context : list (string * C))
    : Network :=
  _flower_of_life_layer py alg (_seed_of_life_layer py (_vesica_piscis_layer py query context)).

Lemma insight_not_empty (C : Type) (theme : string) (context : list (string * C)) :
  _generate_insight theme context <> "".
Proof.
  unfold _generate_insight.
  destruct (get_cases insights_table theme
              "Consider multiple perspectives and long-term impacts") as [->|H];
    [discriminate|].
  revert H. generalize (Py.get insights_table theme
                          "Consider multiple perspectives and long-term impacts").
  intros text H Hempty. subst text. simpl in H.
  repeat (destruct H as [H|H]; [discriminate|]). exact H.
Qed.

Lemma vesica_fold (C : Type) (context : list (string * C)) (themes : list string) :
  forall acc,
    fold_left
      (fun insights theme =>
         let insight := _generate_insight theme context in
         if String.eqb insight "" then insights else insights ++ [insight])
      themes acc
    = acc ++ map (fun theme => _generate_insight theme context) themes.
Proof.
  induction themes as [|t rest IH]; intros acc; cbn [fold_left map].
  - now rewrite app_nil_r.
  - rewrite IH. cbv zeta.
    destruct (String.eqb_spec (_generate_insight t context) "") as [H|_];
      [now apply insight_not_empty in H|].
    now rewrite <- app_assoc.
Qed.

(** ** Every interpreter builds the same network *)

Lemma generate_insight_ascii (C : Type) (theme : string) (context : list (string * C)) :
  Py.is_ascii (_generate_insight theme context) = true.
Proof.
  unfold _generate_insight.
  destruct (get_cases insights_table theme
              "Consider multiple perspectives and long-term impacts") as [->|H];
    [reflexivity|].
  revert H. generalize (Py.get insights_table theme
                          "Consider multiple perspectives and long-term impacts").
  intros text H. simpl in H.
  repeat (destruct H as [H|H]; [injection H as _ <-; reflexivity|]). contradiction.
Qed.

Lemma insights_of_themes_eq (themes : list string) :
  insights_of_themes themes = map (fun theme => @_generate_insight unit theme []) themes.
Proof. apply (vesica_fold unit [] themes []). Qed.

Lemma insights_are_ascii (themes : list string) :
  Forall (fun insight => Py.is_ascii insight = true) (insights_of_themes themes).
Proof.
  rewrite insights_of_themes_eq. apply Forall_forall. intros insight Hin.
  apply in_map_iff in Hin. destruct Hin as (theme & <- & _).
  apply generate_insight_ascii.
Qed.

(** On ASCII text the match count is the one of [ascii_interpreter]. *)
Lemma count_matches_ascii (py : Py.Interpreter) (insight : string) (indicators : list string) :
  Py.is_ascii insight = true ->
  count_matches py insight indicators = count_matches ascii_interpreter insight indicators.
Proof.
  intros Hascii. unfold count_matches. now rewrite (Py.lower_ascii py insight Hascii).
Qed.

Lemma seed_ascii (py : Py.Interpreter) (insights : list string) :
  Forall (fun insight => Py.is_ascii insight = true) insights ->
  _seed_of_life_layer py insights = _seed_of_life_layer ascii_interpreter insights.
Proof.
  intros Hall. unfold _seed_of_life_layer. generalize initial_patterns.
  induction Hall as [|insight rest Hascii _ IH]; intros patterns; cbn [fold_left];
    [reflexivity|].
  rewrite IH. f_equal. unfold absorb_insight, _calculate_pattern_strength.
  apply map_ext. intros kv. now rewrite (count_matches_ascii py insight _ Hascii).
Qed.

(** On scores that [<] orders, the network is the one of
    [ascii_interpreter]. *)
Lemma flower_ordered (py : Py.Interpreter) (alg : Py.SumAlgorithm)
    (patterns : list (string * float)) :
  strict_weak float_gt (map snd patterns) ->
  _flower_of_life_layer py alg patterns = _flower_of_life_layer ascii_interpreter alg patterns.
Proof.
  intros Hsw. unfold _flower_of_life_layer, _find_central_patterns.
  now rewrite (Py.sorted_desc_stable py patterns Hsw).
Qed.

Lemma network_canonical (py : Py.Interpreter) (alg : Py.SumAlgorithm) (themes : list string) :
  _flower_of_life_layer py alg (_seed_of_life_layer py (insights_of_themes themes)) =
  network_themes alg themes.
Proof.
  rewrite flower_ordered by apply seed_strict_weak.
  now rewrite (seed_ascii py _ (insights_are_ascii themes)).
Qed.

Lemma network_of_themes (py : Py.Interpreter) (alg : Py.SumAlgorithm) (C : Type)
    (query : string) (context : list (string * C)) :
  network_of py alg query context = network_themes alg (_extract_themes py query).
Proof.
  unfold network_of.
  change (_vesica_piscis_layer py query context)
    with (insights_of_themes (_extract_themes py query)).
  apply network_canonical.
Qed.

(** ** The set order does not reach the decision *)

(** Lifting of a relation to results that may be [None]. *)
Definition option_rel {A} (R : A -> A -> Prop) (x y : option A) : Prop :=
  match x, y with
  | Some a, Some b => R a b
  | None, None => True
  | _, _ => False
  end.

Lemma decide_from_themes (py : Py.Interpreter) order alg C (query : string) (context : list (string * C)) :
  decide py order alg query context = decide_themes order alg (_extract_themes py query).
Proof.
  unfold decide, decide_themes. fold (network_of py alg query context).
  now rewrite network_of_themes.
Qed.

Lemma generate_blueprint_same (o1 o2 : Py.SetOrder) (s : string) (net : Network) (q1 q2 : string) :
  same_plan (_generate_blueprint o1 s net q1) (_generate_blueprint o2 s net q2).
Proof.
  unfold same_plan; simpl. repeat split. apply generate_actions_length.
Qed.

Lemma fruit_same (o1 o2 : Py.SetOrder) (net : Network) (q1 q2 : string) :
  Forall2 same_plan (_fruit_of_life_layer o1 net q1) (_fruit_of_life_layer o2 net q2).
Proof.
  unfold _fruit_of_life_layer.
  induction strategy_types as [|s rest IH]; simpl; constructor; auto.
  apply generate_blueprint_same.
Qed.

Lemma evaluate_same (alg : Py.SumAlgorithm) (b1 b2 : Blueprint) :
  same_plan b1 b2 -> same_eval (evaluate alg b1) (evaluate alg b2).
Proof.
  intros (Hs & Hf & Ha & Hk & He & Hr).
  assert (H1 : _evaluate_action_focus b1 = _evaluate_action_focus b2)
    by (unfold _evaluate_action_focus; now rewrite Hs).
  assert (H2 : _evaluate_stability b1 = _evaluate_stability b2)
    by (unfold _evaluate_stability; now rewrite Hr).
  assert (H3 : _evaluate_clarity b1 = _evaluate_clarity b2)
    by (unfold _evaluate_clarity; now rewrite Hk).
  assert (H4 : _evaluate_adaptability b1 = _evaluate_adaptability b2)
    by (unfold _evaluate_adaptability; now rewrite Hs).
  assert (H5 : _evaluate_purpose b1 = _evaluate_purpose b2)
    by (unfold _evaluate_purpose; now rewrite Hf).
  unfold same_eval, evaluate; cbn [solution scores overall_score risks recommendations].
  rewrite H1, H2, H3, H4, H5.
  split; [repeat split; assumption|]. repeat split.
Qed.

Lemma max_from_same (l1 l2 : list EvaluatedSolution) :
  Forall2 same_eval l1 l2 ->
  forall b1 b2, same_eval b1 b2 ->
  same_eval (Py.max_from (fun a b => (b <? a)%float) overall_score b1 l1)
            (Py.max_from (fun a b => (b <? a)%float) overall_score b2 l2).
Proof.
  induction 1 as [|x y l1 l2 Hxy _ IH]; intros b1 b2 Hb; simpl; [exact Hb|].
  apply IH.
  assert (Hov : overall_score x = overall_score y) by apply Hxy.
  assert (Hov' : overall_score b1 = overall_score b2) by apply Hb.
  rewrite Hov, Hov'.
  destruct (overall_score b2 <? overall_score y)%float; assumption.
Qed.

Lemma metatron_same (alg : Py.SumAlgorithm) (l1 l2 : list Blueprint) :
  Forall2 same_plan l1 l2 ->
  option_rel same_eval (_metatrons_cube_layer alg l1) (_metatrons_cube_layer alg l2).
Proof.
  intros H. unfold _metatrons_cube_layer.
  destruct H as [|b1 b2 l1 l2 Hb Hl]; simpl; [exact I|].
  apply max_from_same; [|now apply evaluate_same].
  induction Hl; simpl; constructor; auto using evaluate_same.
Qed.

Lemma decide_same (o1 o2 : Py.SetOrder) (alg : Py.SumAlgorithm) (themes : list string) :
  option_rel same_eval (decide_themes o1 alg themes) (decide_themes o2 alg themes).
Proof. unfold decide_themes. apply metatron_same, fruit_same. Qed.

Lemma conscious_same (e1 e2 : EvaluatedSolution) (query domain : string) :
  same_eval e1 e2 ->
  _conscious_field_layer e1 query domain = _conscious_field_layer e2 query domain.
Proof.
  intros ((_ & _ & _ & _ & He & _) & Hsc & Hov & Hri & Hre).
  unfold _conscious_field_layer, _apply_domain_knowledge, _learn_from_analysis; simpl.
  now rewrite He, Hsc, Hov, Hri, Hre.
Qed.

Lemma analyze_same (py : Py.Interpreter) (o1 o2 : Py.SetOrder) alg C (query domain : string)
    (context : list (string * C)) :
  analyze py o1 alg query domain context = analyze py o2 alg query domain context.
Proof.
  unfold analyze. rewrite !decide_from_themes.
  pose proof (decide_same o1 o2 alg (_extract_themes py query)) as H.
  destruct (decide_themes o1 alg _), (decide_themes o2 alg _); simpl in H;
    try contradiction; [|reflexivity].
  now rewrite (conscious_same _ _ _ _ H).
Qed.

(** The decisions the engine can reach, computed with the first-occurrence
    set order. *)
Definition reachable_decisions (alg : Py.SumAlgorithm) : list EvaluatedSolution :=
  flat_map
    (fun themes =>
       match decide_themes insertion_order alg themes with
       | Some d => [d]
       | None => []
       end)
    possible_themes.

Lemma decide_themes_total (o : Py.SetOrder) (alg : Py.SumAlgorithm) (themes : list string) :
  exists d, decide_themes o alg themes = Some d.
Proof.
  unfold decide_themes, _metatrons_cube_layer, _fruit_of_life_layer, strategy_types.
  cbn [map Py.max_by]. eexists. reflexivity.
Qed.

(** Whatever the query and the set order, the decision exists and agrees,
    up to the choice of listed actions, with one of the reachable ones. *)
Lemma decide_reachable (py : Py.Interpreter) (o : Py.SetOrder) alg C (query : string) (context : list (string * C)) :
  exists d d0,
    decide py o alg query context = Some d /\
    In d0 (reachable_decisions alg) /\
    same_eval d d0.
Proof.
  rewrite decide_from_themes.
  pose proof (decide_same o insertion_order alg (_extract_themes py query)) as H.
  destruct (decide_themes_total o alg (_extract_themes py query)) as [d Hd].
  destruct (decide_themes_total insertion_order alg (_extract_themes py query)) as [d0 Hd0].
  rewrite Hd, Hd0 in H. exists d, d0.
  split; [exact Hd|]. split; [|exact H].
  unfold reachable_decisions. apply in_flat_map.
  exists (_extract_themes py query). split; [apply extract_themes_possible|].
  rewrite Hd0. now left.
Qed.

(** ** Determinism, totality and the role of the domain *)

(** C3: the analysis is deterministic.  Two runs on the same query,
    domain and context build the same FinalDecision (decision text,
    confidence, risks, recommendations and geometric balance), even when
    the two interpreter runs iterate string sets in different orders; and
    [process] ends the same way in both, with the same line logged. *)
Theorem C3_analysis_deterministic (py : Py.Interpreter)
    (run1 run2 : Py.SetOrder) (alg : Py.SumAlgorithm) (C : Type)
    (query domain : string) (context : list (string * C)) :
  analyze py run1 alg query domain context = analyze py run2 alg query domain context /\
  process py run1 alg query domain context = process py run2 alg query domain context.
Proof.
  split; [apply analyze_same|].
  unfold process. rewrite !decide_from_themes.
  pose proof (decide_same run1 run2 alg (_extract_themes py query)) as H.
  destruct (decide_themes run1 alg _), (decide_themes run2 alg _); simpl in H;
    try contradiction; [|reflexivity].
  now rewrite (conscious_same _ _ _ _ H).
Qed.

(** On ASCII text every interpreter finds the themes of
    [ascii_interpreter]. *)
Lemma extract_themes_ascii (py : Py.Interpreter) (query : string) :
  Py.is_ascii query = true ->
  _extract_themes py query = _extract_themes ascii_interpreter query.
Proof.
  intros Hascii. unfold _extract_themes. now rewrite (Py.lower_ascii py query Hascii).
Qed.

Lemma process_raises (py : Py.Interpreter) (order : Py.SetOrder) (alg : Py.SumAlgorithm)
    (C : Type) (query domain : string) (context : list (string * C)) :
  process py order alg query domain context =
    ([("Learned from " ++ domain ++ " analysis: " ++ Py.str_prefix 50 query ++ "...")%string],
     inl (Py.AttributeError "dict" "final_decision")).
Proof.
  unfold process. rewrite decide_from_themes.
  destruct (decide_themes_total order alg (_extract_themes py query)) as [d ->].
  reflexivity.
Qed.

(** C5: the six layers never raise, but [process] does.  For every query
    string, every domain string and every context the layers yield a
    FinalDecision: the lookups fall back (a theme without an entry gets
    the default insight, a domain other than the three known ones the
    business template), and the empty query has exactly the themes
    [["general"]], whose insight is the default text.  [process] then
    reads [wisdom.final_decision] on the dict that layer 5 returned: on
    the empty query, as on every other input, it has logged its line and
    ends in [AttributeError], "'dict' object has no attribute
    'final_decision'", and returns no result. *)
Theorem C5_layers_complete_process_raises
    (py : Py.Interpreter) (order : Py.SetOrder) (alg : Py.SumAlgorithm) (C : Type)
    (query domain : string) (context : list (string * C)) :
  (exists fd, analyze py order alg query domain context = Some fd) /\
  _extract_themes py "" = ["general"] /\
  _vesica_piscis_layer py "" context =
    ["Consider multiple perspectives and long-term impacts"] /\
  (exists fd, analyze py order alg "" domain context = Some fd) /\
  process py order alg "" domain context =
    ([("Learned from " ++ domain ++ " analysis: ...")%string],
     inl (Py.AttributeError "dict" "final_decision")) /\
  (exists line,
      process py order alg query domain context =
        ([line], inl (Py.AttributeError "dict" "final_decision"))) /\
  (forall theme,
      Py.has_key insights_table theme = false ->
      _generate_insight theme context =
        "Consider multiple perspectives and long-term impacts") /\
  (forall (decision : EvaluatedSolution) (q : string),
      Py.mem domain ["business"; "personal"; "ecological"] = false ->
      final_decision (fst (_conscious_field_layer decision q domain)) =
        ("Business strategy: " ++ expected_outcome (solution decision))%string).
Proof.
  assert (Htotal : forall q, exists d, decide py order alg q context = Some d).
  { intros q. rewrite decide_from_themes. apply decide_themes_total. }
  assert (Hempty : _extract_themes py "" = ["general"])
    by (rewrite extract_themes_ascii; reflexivity).
  split; [unfold analyze; destruct (Htotal query) as [d ->]; eauto|].
  split; [exact Hempty|].
  split; [unfold _vesica_piscis_layer; rewrite Hempty; reflexivity|].
  split; [unfold analyze; destruct (Htotal "") as [d ->]; eauto|].
  split; [now rewrite process_raises|].
  split; [rewrite process_raises; eauto|].
  split.
  - intros theme Hkey. now apply get_without_key.
  - intros decision q Hdom. unfold Py.mem in Hdom. cbn [existsb] in Hdom.
    rewrite !orb_false_iff in Hdom. destruct Hdom as (Hb & Hp & He & _).
    unfold _conscious_field_layer, _apply_domain_knowledge.
    cbn [fst final_decision Py.get]. now rewrite Hb, Hp, He.
Qed.

(** C8: the domain label reaches only the decision text.  For every query
    and context, the confidence, risks, recommendations and geometric
    balance of the FinalDecision are those of the winning solution, the
    same under any two domain labels; under the domain "ecological" the
    text is the fixed ecological template, whatever the winning solution
    is. *)
Theorem C8_domain_changes_only_text (py : Py.Interpreter)
    (order : Py.SetOrder) (alg : Py.SumAlgorithm) (C : Type)
    (query domain1 domain2 : string) (context : list (string * C)) :
  (exists best fd1 fd2,
      decide py order alg query context = Some best /\
      analyze py order alg query domain1 context = Some fd1 /\
      analyze py order alg query domain2 context = Some fd2 /\
      (confidence fd1 = overall_score best /\
       fd_risks fd1 = risks best /\
       fd_recommendations fd1 = recommendations best /\
       geometric_balance fd1 = scores best) /\
      (confidence fd2 = confidence fd1 /\
       fd_risks fd2 = fd_risks fd1 /\
       fd_recommendations fd2 = fd_recommendations fd1 /\
       geometric_balance fd2 = geometric_balance fd1)) /\
  (exists fd,
      analyze py order alg query "ecological" context = Some fd /\
      final_decision fd =
        "Ecological approach: Prioritize sustainability and system health") /\
  (forall (decision : EvaluatedSolution) (q : string),
      final_decision (fst (_conscious_field_layer decision q "ecological")) =
        "Ecological approach: Prioritize sustainability and system health").
Proof.
  destruct (decide_themes_total order alg (_extract_themes py query)) as [d Hd].
  rewrite <- (decide_from_themes py order alg C query context) in Hd.
  unfold analyze. rewrite Hd. split; [|split].
  - exists d. do 2 eexists. repeat split.
  - eexists. split; reflexivity.
  - reflexivity.
Qed.

(** ** The selection rule of [max] *)

(** The position [max(xs, key=...)] selects, computed from the keys alone. *)
Fixpoint argmax_from {K} (gt : K -> K -> bool) (best_i : nat) (best_k : K) (i : nat)
    (ks : list K) : nat :=
  match ks with
  | [] => best_i
  | k :: rest =>
      if gt k best_k then argmax_from gt i k (S i) rest
      else argmax_from gt best_i best_k (S i) rest
  end.

Definition argmax {K} (gt : K -> K -> bool) (ks : list K) : nat :=
  match ks with
  | [] => 0
  | k :: rest => argmax_from gt 0 k 1 rest
  end.

Section MaxByFacts.
Context {A K : Type} (gt : K -> K -> bool) (key : A -> K).

Lemma max_from_argmax (xs : list A) :
  forall (pre : list A) (best : A) (best_i : nat),
    nth_error pre best_i = Some best ->
    nth_error (pre ++ xs)
              (argmax_from gt best_i (key best) (List.length pre) (map key xs))
    = Some (Py.max_from gt key best xs).
Proof.
  induction xs as [|x rest IH]; intros pre best best_i Hbest; simpl.
  - now rewrite app_nil_r.
  - replace (pre ++ x :: rest) with ((pre ++ [x]) ++ rest)
      by now rewrite <- app_assoc.
    replace (S (List.length pre)) with (List.length (pre ++ [x]))
      by (rewrite length_app; simpl; lia).
    destruct (gt (key x) (key best)).
    + rewrite length_app; simpl. rewrite Nat.add_1_r.
      replace (S (List.length pre)) with (List.length (pre ++ [x]))
        by (rewrite length_app; simpl; lia).
      apply IH. rewrite nth_error_app2 by lia. now rewrite Nat.sub_diag.
    + apply IH. rewrite nth_error_app1; [exact Hbest|].
      apply nth_error_Some. now rewrite Hbest.
Qed.

Lemma max_by_argmax (x : A) (rest : list A) :
  Py.max_by gt key (x :: rest) = nth_error (x :: rest) (argmax gt (map key (x :: rest))).
Proof.
  simpl. symmetry. exact (max_from_argmax rest [x] x 0 eq_refl).
Qed.

Lemma max_from_in (xs : list A) :
  forall best, Py.max_from gt key best xs = best \/ In (Py.max_from gt key best xs) xs.
Proof.
  induction xs as [|x rest IH]; intros best; simpl; [now left|].
  destruct (IH (if gt (key x) (key best) then x else best)) as [H|H]; [|now right; right].
  rewrite H. destruct (gt (key x) (key best)); [right|]; now left.
Qed.

Lemma max_by_in (xs : list A) (best : A) :
  Py.max_by gt key xs = Some best -> In best xs.
Proof.
  destruct xs as [|x rest]; simpl; [discriminate|].
  intros [= <-]. destruct (max_from_in rest x) as [->|H]; [now left|now right].
Qed.

(** For keys that [gt] orders as a strict weak order, [max_by] returns
    the first element of maximal key: no element has a greater key, and
    every element before it has a strictly smaller one. *)
Definition first_max (l : list A) (i : nat) (best : A) : Prop :=
  nth_error l i = Some best /\
  forall j e, nth_error l j = Some e ->
              gt (key e) (key best) = false /\
              ((j < i)%nat -> gt (key best) (key e) = true).

Lemma first_max_snoc (pre : list A) (i : nat) (best x : A) :
  strict_weak gt (map key (pre ++ [x])) ->
  first_max pre i best ->
  first_max (pre ++ [x])
            (if gt (key x) (key best) then List.length pre else i)
            (if gt (key x) (key best) then x else best).
Proof.
  intros (Hirr & Htr & Hneg) (Hnth & Hall).
  assert (Hi : (i < List.length pre)%nat) by (apply nth_error_Some; now rewrite Hnth).
  assert (Hin : forall j e, nth_error (pre ++ [x]) j = Some e ->
                            In (key e) (map key (pre ++ [x])))
    by (intros j e Hj; apply in_map; eapply nth_error_In; exact Hj).
  assert (Hbest : In (key best) (map key (pre ++ [x])))
    by (apply (Hin i); now rewrite nth_error_app1).
  assert (Hx : In (key x) (map key (pre ++ [x])))
    by (apply in_map, in_or_app; right; now left).
  assert (Hlast : forall j e, (List.length pre <= j)%nat ->
                              nth_error (pre ++ [x]) j = Some e ->
                              j = List.length pre /\ e = x).
  { intros j e Hj He. rewrite nth_error_app2 in He by exact Hj.
    destruct (j - List.length pre)%nat as [|m] eqn:Hm; simpl in He.
    - injection He as <-. split; [lia|reflexivity].
    - destruct m; discriminate. }
  destruct (gt (key x) (key best)) eqn:Hg; split.
  - rewrite nth_error_app2 by lia. now rewrite Nat.sub_diag.
  - intros j e Hj. pose proof (Hin j e Hj) as He.
    destruct (Nat.lt_ge_cases j (List.length pre)) as [Hlt|Hge].
    + rewrite nth_error_app1 in Hj by exact Hlt.
      destruct (Hall j e Hj) as [Hle _]. split.
      * destruct (gt (key e) (key x)) eqn:Hex; [|reflexivity].
        now rewrite (Htr _ _ _ He Hx Hbest Hex Hg) in Hle.
      * intros _. destruct (gt (key x) (key e)) eqn:Hxe; [reflexivity|].
        now rewrite (Hneg _ _ _ Hx He Hbest Hxe Hle) in Hg.
    + destruct (Hlast j e Hge Hj) as [-> ->]. split; [now apply Hirr|lia].
  - now rewrite nth_error_app1.
  - intros j e Hj.
    destruct (Nat.lt_ge_cases j (List.length pre)) as [Hlt|Hge].
    + rewrite nth_error_app1 in Hj by exact Hlt. now apply Hall.
    + destruct (Hlast j e Hge Hj) as [-> ->]. split; [exact Hg|lia].
Qed.

Lemma max_from_first_max (xs : list A) :
  forall (pre : list A) (i : nat) (best : A),
    strict_weak gt (map key (pre ++ xs)) ->
    first_max pre i best ->
    exists i', first_max (pre ++ xs) i' (Py.max_from gt key best xs).
Proof.
  induction xs as [|x rest IH]; intros pre i best Hsw Hfm; simpl.
  - rewrite app_nil_r. now exists i.
  - replace (pre ++ x :: rest) with ((pre ++ [x]) ++ rest) in *
      by now rewrite <- app_assoc.
    eapply IH; [exact Hsw|]. apply first_max_snoc; [|exact Hfm].
    destruct Hsw as (Hirr & Htr & Hneg).
    assert (Hsub : forall k, In k (map key (pre ++ [x])) ->
                             In k (map key ((pre ++ [x]) ++ rest)))
      by (intros k Hk; rewrite map_app; apply in_or_app; now left).
    repeat split; intros; eauto.
Qed.

Lemma max_by_first_max (l : list A) (best : A) :
  strict_weak gt (map key l) ->
  Py.max_by gt key l = Some best ->
  exists i, first_max l i best.
Proof.
  destruct l as [|x rest]; simpl; [discriminate|].
  intros Hsw [= <-].
  apply (max_from_first_max rest [x] 0 x Hsw).
  destruct Hsw as (Hirr & _). split; [reflexivity|].
  intros [|[|j]] e He; simpl in He; try discriminate.
  injection He as <-. split; [|lia]. apply Hirr. now left.
Qed.

End MaxByFacts.

Lemma metatron_in (alg : Py.SumAlgorithm) (solutions : list Blueprint) (best : EvaluatedSolution) :
  _metatrons_cube_layer alg solutions = Some best ->
  exists blueprint, In blueprint solutions /\ best = evaluate alg blueprint.
Proof.
  intros H. apply max_by_in, in_map_iff in H.
  destruct H as (b & Hb & Hin). now exists b.
Qed.

(** ** Confidence is the mean of the geometric balance *)

(** The exact arithmetic mean of the rational values of a list of doubles. *)
Definition mean_Q (xs : list float) : Q :=
  fold_right Qplus 0 (map float_to_Q xs) / inject_Z (Z.of_nat (List.length xs)).

Lemma reachable_mean_close (alg : Py.SumAlgorithm) :
  forallb (fun d => close_to ulp (overall_score d) (mean_Q (map snd (scores d))))
          (reachable_decisions alg) = true.
Proof. destruct alg; vm_compute; reflexivity. Qed.

(** C1: for every query, domain and context, the geometric balance of the
    FinalDecision holds the five dimension scores of the winning blueprint
    under their five names, and the confidence is their arithmetic mean:
    it is the double [sum(scores.values()) / 5] the interpreter computes
    from them, and it lies within one unit in the last place of the exact
    mean (a + s + c + ad + p) / 5 of the five values. *)
Theorem C1_confidence_is_mean_of_balance (py : Py.Interpreter)
    (order : Py.SetOrder) (alg : Py.SumAlgorithm) (C : Type)
    (query domain : string) (context : list (string * C)) :
  exists best fd a s c ad p,
    decide py order alg query context = Some best /\
    analyze py order alg query domain context = Some fd /\
    a = _evaluate_action_focus (solution best) /\
    s = _evaluate_stability (solution best) /\
    c = _evaluate_clarity (solution best) /\
    ad = _evaluate_adaptability (solution best) /\
    p = _evaluate_purpose (solution best) /\
    geometric_balance fd =
      [ ("action_focus", a); ("stability_foundation", s); ("clarity_logic", c);
        ("adaptability_empathy", ad); ("purpose_potential", p) ] /\
    confidence fd = (Py.sum alg [a; s; c; ad; p] / 5)%float /\
    close_to ulp (confidence fd)
      ((float_to_Q a + float_to_Q s + float_to_Q c + float_to_Q ad + float_to_Q p) / 5)
      = true.
Proof.
  destruct (decide_reachable py order alg C query context) as (d & d0 & Hd & Hin & Hsame).
  pose proof Hd as Hev. unfold decide in Hev.
  apply metatron_in in Hev. destruct Hev as (b & _ & ->).
  pose proof (reachable_mean_close alg) as Hclose.
  rewrite forallb_forall in Hclose. specialize (Hclose d0 Hin).
  destruct Hsame as (_ & Hsc & Hov & _). rewrite <- Hsc, <- Hov in Hclose.
  unfold analyze. rewrite Hd.
  eexists _, _, _, _, _, _, _. repeat (split; [reflexivity|]).
  unfold close_to in Hclose |- *.
  apply andb_true_iff in Hclose. destruct Hclose as [Hfin Hle].
  apply andb_true_iff. split; [exact Hfin|].
  apply Qle_bool_iff. apply Qle_bool_iff in Hle.
  eapply Qle_trans; [|exact Hle]. apply Qle_lteq. right.
  apply Qabs_wd. unfold Qminus. apply Qplus_comp; [reflexivity|].
  unfold mean_Q, evaluate. cbn [map fold_right List.length scores solution snd].
  apply Qopp_comp. apply Qdiv_comp; [ring|reflexivity].
Qed.

(** ** The five evaluated blueprints of an analysis *)

(** The five evaluated blueprints with the first-occurrence set order,
    from the themes on, and their overall scores. *)
Definition evaluated_themes (alg : Py.SumAlgorithm) (themes : list string)
    : list EvaluatedSolution :=
  map (evaluate alg) (_fruit_of_life_layer insertion_order (network_themes alg themes) "").

Definition scoreboard (alg : Py.SumAlgorithm) (themes : list string) : list float :=
  map overall_score (evaluated_themes alg themes).

Lemma evaluated_canonical (py : Py.Interpreter) (order : Py.SetOrder) alg C (query : string)
    (context : list (string * C)) :
  Forall2 same_eval
    (map (evaluate alg) (_fruit_of_life_layer order (network_of py alg query context) query))
    (evaluated_themes alg (_extract_themes py query)).
Proof.
  unfold evaluated_themes.
  assert (H : Forall2 same_plan
                (_fruit_of_life_layer order (network_of py alg query context) query)
                (_fruit_of_life_layer insertion_order
                   (network_themes alg (_extract_themes py query)) ""))
    by (rewrite network_of_themes; apply fruit_same).
  induction H; simpl; constructor; auto using evaluate_same.
Qed.

Lemma scoreboard_canonical (py : Py.Interpreter) (order : Py.SetOrder) alg C (query : string)
    (context : list (string * C)) :
  map overall_score
      (map (evaluate alg) (_fruit_of_life_layer order (network_of py alg query context) query))
  = scoreboard alg (_extract_themes py query).
Proof.
  unfold scoreboard.
  pose proof (evaluated_canonical py order alg C query context) as H.
  induction H as [|x y l1 l2 Hxy _ IH]; simpl; [reflexivity|].
  rewrite IH. f_equal. apply Hxy.
Qed.

(** On a board of keys, position [argmax] holds a maximum and every
    earlier position a strictly smaller key. *)
Definition first_maximum_check (ks : list float) : bool :=
  let i := argmax float_gt ks in
  forallb
    (fun j =>
       (nth j ks 0 <=? nth i ks 0)%float
       && (if (j <? i)%nat then (nth j ks 0 <? nth i ks 0)%float else true))
    (seq 0 (List.length ks)).

Lemma first_maximum_sound (x : EvaluatedSolution) (rest : list EvaluatedSolution) :
  first_maximum_check (map overall_score (x :: rest)) = true ->
  exists i best,
    Py.max_by float_gt overall_score (x :: rest) = Some best /\
    nth_error (x :: rest) i = Some best /\
    forall j e,
      nth_error (x :: rest) j = Some e ->
      (overall_score e <=? overall_score best)%float = true /\
      ((j < i)%nat -> (overall_score e <? overall_score best)%float = true).
Proof.
  intros Hchk.
  pose proof (max_by_argmax float_gt overall_score x rest) as Hmax.
  assert (Hsome : exists best, Py.max_by float_gt overall_score (x :: rest) = Some best)
    by (simpl; eauto).
  destruct Hsome as [best Hsome]. rewrite Hsome in Hmax. symmetry in Hmax.
  revert Hchk Hmax Hsome. generalize (x :: rest) as l. intros l Hchk Hbest Hsome.
  unfold first_maximum_check in Hchk. rewrite forallb_forall in Hchk.
  set (i := argmax float_gt (map overall_score l)) in *.
  assert (Hi : (i < List.length l)%nat) by (apply nth_error_Some; now rewrite Hbest).
  exists i, best. split; [exact Hsome|]. split; [exact Hbest|].
  intros j e Hj.
  assert (Hjlt : (j < List.length l)%nat) by (apply nth_error_Some; now rewrite Hj).
  assert (Hjin : In j (seq 0 (List.length (map overall_score l))))
    by (rewrite length_map; apply in_seq; lia).
  specialize (Hchk j Hjin).
  rewrite (nth_indep _ 0%float (overall_score e)) in Hchk by (rewrite length_map; lia).
  rewrite (nth_indep (map overall_score l) 0%float (overall_score best)) in Hchk
    by (rewrite length_map; lia).
  rewrite !map_nth in Hchk.
  rewrite (nth_error_nth _ _ _ Hj), (nth_error_nth _ _ _ Hbest) in Hchk.
  apply andb_true_iff in Hchk. destruct Hchk as [Hle Hlt]. split; [exact Hle|].
  intros Hji. apply Nat.ltb_lt in Hji. now rewrite Hji in Hlt.
Qed.

(** The three laws of [strict_weak], tested on a finite board. *)
Definition strict_weak_check (ks : list float) : bool :=
  forallb
    (fun a =>
       negb (float_gt a a)
       && forallb
            (fun b =>
               forallb
                 (fun c =>
                    implb (float_gt a b && float_gt b c) (float_gt a c)
                    && implb (negb (float_gt a b) && negb (float_gt b c))
                             (negb (float_gt a c)))
                 ks)
            ks)
    ks.

Lemma strict_weak_check_sound (ks : list float) :
  strict_weak_check ks = true -> strict_weak float_gt ks.
Proof.
  unfold strict_weak_check. rewrite forallb_forall. intros H.
  assert (Hall : forall a b c, In a ks -> In b ks -> In c ks ->
                   float_gt a a = false /\
                   implb (float_gt a b && float_gt b c) (float_gt a c) = true /\
                   implb (negb (float_gt a b) && negb (float_gt b c))
                         (negb (float_gt a c)) = true).
  { intros a b c Ha Hb Hc. specialize (H a Ha).
    apply andb_true_iff in H. destruct H as [Hirr H].
    rewrite forallb_forall in H. specialize (H b Hb).
    rewrite forallb_forall in H. specialize (H c Hc).
    apply andb_true_iff in H. apply negb_true_iff in Hirr. tauto. }
  repeat split.
  - intros a Ha. apply (Hall a a a Ha Ha Ha).
  - intros a b c Ha Hb Hc Hab Hbc.
    destruct (Hall a b c Ha Hb Hc) as (_ & Htr & _).
    rewrite Hab, Hbc in Htr. exact Htr.
  - intros a b c Ha Hb Hc Hab Hbc.
    destruct (Hall a b c Ha Hb Hc) as (_ & _ & Hneg).
    rewrite Hab, Hbc in Hneg. now apply negb_true_iff in Hneg.
Qed.

Lemma scoreboards_strict_weak (alg : Py.SumAlgorithm) :
  forallb (fun themes => strict_weak_check (scoreboard alg themes)) possible_themes = true.
Proof. destruct alg; vm_compute; reflexivity. Qed.

Lemma scoreboards_first_maximum (alg : Py.SumAlgorithm) :
  forallb (fun themes => first_maximum_check (scoreboard alg themes)) possible_themes = true.
Proof. destruct alg; vm_compute; reflexivity. Qed.

(** C4: the solution evaluator selects a blueprint of maximal overall
    score, the first such in the enumeration order aggressive, balanced,
    conservative, innovative, efficient.  For every analysis the five
    blueprints are evaluated in that order, the selected one is in the
    list, no evaluated blueprint has a greater overall score, and every
    blueprint before the selected one has a strictly smaller score.  The
    same holds for any list of candidate blueprints whose overall scores
    [<] orders as a strict weak order (no NaN among them), as the scores
    of an analysis always are. *)
Theorem C4_selects_first_maximum (py : Py.Interpreter)
    (order : Py.SetOrder) (alg : Py.SumAlgorithm) (C : Type)
    (query : string) (context : list (string * C)) :
  let solutions := _fruit_of_life_layer order (network_of py alg query context) query in
  let evaluated := map (evaluate alg) solutions in
  map strategy solutions =
    ["aggressive"; "balanced"; "conservative"; "innovative"; "efficient"] /\
  exists i best,
    decide py order alg query context = Some best /\
    _metatrons_cube_layer alg solutions = Some best /\
    nth_error evaluated i = Some best /\
    (forall j e,
        nth_error evaluated j = Some e ->
        (overall_score e <=? overall_score best)%float = true /\
        ((j < i)%nat -> (overall_score e <? overall_score best)%float = true)) /\
    strict_weak float_gt (map overall_score evaluated) /\
    forall (candidates : list Blueprint) (chosen : EvaluatedSolution),
      strict_weak float_gt (map overall_score (map (evaluate alg) candidates)) ->
      _metatrons_cube_layer alg candidates = Some chosen ->
      exists k, first_max float_gt overall_score (map (evaluate alg) candidates) k chosen.
Proof.
  intros solutions evaluated.
  assert (Hsw : strict_weak float_gt (map overall_score evaluated)).
  { unfold evaluated, solutions. rewrite scoreboard_canonical.
    apply strict_weak_check_sound.
    pose proof (scoreboards_strict_weak alg) as H.
    rewrite forallb_forall in H. apply H, extract_themes_possible. }
  assert (Hchk : first_maximum_check (map overall_score evaluated) = true).
  { unfold evaluated, solutions. rewrite scoreboard_canonical.
    pose proof (scoreboards_first_maximum alg) as H.
    rewrite forallb_forall in H. apply H, extract_themes_possible. }
  assert (Hdecide : decide py order alg query context = _metatrons_cube_layer alg solutions)
    by (unfold decide, solutions, network_of; reflexivity).
  rewrite Hdecide. unfold _metatrons_cube_layer. fold evaluated. fold float_gt.
  assert (Hshape : exists x rest, evaluated = x :: rest)
    by (unfold evaluated, solutions, _fruit_of_life_layer, strategy_types;
        cbn [map]; eauto).
  destruct Hshape as (x & rest & Hshape).
  split; [unfold solutions, _fruit_of_life_layer, strategy_types; cbn [map]; reflexivity|].
  clearbody evaluated. subst evaluated.
  destruct (first_maximum_sound x rest Hchk) as (i & best & Hmax & Hnth & Hall).
  exists i, best. repeat (split; [assumption|]).
  intros candidates chosen Hcand Hchosen.
  now apply (max_by_first_max float_gt overall_score).
Qed.

(** ** The balanced blueprint always wins *)

Lemma evaluated_strategy_canonical (py : Py.Interpreter) (order : Py.SetOrder) alg C (query : string)
    (context : list (string * C)) (s : string) :
  same_eval
    (evaluate alg (_generate_blueprint order s (network_of py alg query context) query))
    (evaluate alg
       (_generate_blueprint insertion_order s (network_themes alg (_extract_themes py query)) "")).
Proof. rewrite network_of_themes. apply evaluate_same, generate_blueprint_same. Qed.

Definition balanced_wins_check (alg : Py.SumAlgorithm) (themes : list string) : bool :=
  let net := network_themes alg themes in
  let bp := fun s => _generate_blueprint insertion_order s net "" in
  let sc := fun s => overall_score (evaluate alg (bp s)) in
  (argmax float_gt (map sc strategy_types) =? 1)%nat
  && (sc "innovative" =? sc "balanced")%float
  && (sc "aggressive" <? sc "balanced")%float
  && (sc "conservative" <? sc "balanced")%float
  && (sc "efficient" <? sc "balanced")%float
  && forallb (fun s => Nat.eqb (List.length (key_actions (bp s)))
                               (List.length (key_actions (bp "balanced"))))
             strategy_types
  && (close_to ulp (sc "balanced") (68 # 100) || close_to ulp (sc "balanced") (74 # 100)
      || close_to ulp (sc "balanced") (76 # 100) || close_to ulp (sc "balanced") (82 # 100)).

Lemma balanced_wins_everywhere (alg : Py.SumAlgorithm) :
  forallb (balanced_wins_check alg) possible_themes = true.
Proof. destruct alg; vm_compute; reflexivity. Qed.

(** C9: in every analysis the selected blueprint is the balanced one.
    The five blueprints share their clarity and purpose scores; the
    balanced and the innovative blueprint tie for the greatest overall
    score, strictly above the other three, and the tie goes to the earlier
    one, balanced.  So the winner's risk level is "medium", and the
    confidence is, to the last place of a double, one of 0.68, 0.74, 0.76
    and 0.82. *)
Theorem C9_balanced_always_wins (py : Py.Interpreter)
    (order : Py.SetOrder) (alg : Py.SumAlgorithm) (C : Type)
    (query domain : string) (context : list (string * C)) :
  let network := network_of py alg query context in
  let blueprint := fun s => _generate_blueprint order s network query in
  let score := fun s => overall_score (evaluate alg (blueprint s)) in
  decide py order alg query context = Some (evaluate alg (blueprint "balanced")) /\
  strategy (blueprint "balanced") = "balanced" /\
  risk_level (blueprint "balanced") = "medium" /\
  (score "innovative" =? score "balanced")%float = true /\
  (score "aggressive" <? score "balanced")%float = true /\
  (score "conservative" <? score "balanced")%float = true /\
  (score "efficient" <? score "balanced")%float = true /\
  Forall (fun s =>
            _evaluate_clarity (blueprint s) = _evaluate_clarity (blueprint "balanced") /\
            _evaluate_purpose (blueprint s) = _evaluate_purpose (blueprint "balanced"))
         strategy_types /\
  exists fd,
    analyze py order alg query domain context = Some fd /\
    confidence fd = score "balanced" /\
    (close_to ulp (confidence fd) (68 # 100) || close_to ulp (confidence fd) (74 # 100)
     || close_to ulp (confidence fd) (76 # 100) || close_to ulp (confidence fd) (82 # 100))
    = true.
Proof.
  intros network blueprint score.
  pose proof (balanced_wins_everywhere alg) as Hchk.
  rewrite forallb_forall in Hchk. specialize (Hchk _ (extract_themes_possible py query)).
  unfold balanced_wins_check in Hchk. cbv zeta in Hchk.
  pose (bp0 := fun s => _generate_blueprint insertion_order s
                          (network_themes alg (_extract_themes py query)) "").
  assert (Hsame : forall s, same_eval (evaluate alg (blueprint s)) (evaluate alg (bp0 s)))
    by (intros s; apply evaluated_strategy_canonical).
  assert (Hscore : forall s, score s = overall_score (evaluate alg (bp0 s)))
    by (intros s; apply Hsame).
  assert (Hlen : forall s, List.length (key_actions (blueprint s)) =
                           List.length (key_actions (bp0 s)))
    by (intros s; apply (Hsame s)).
  clear Hsame. subst bp0. cbv beta in Hscore, Hlen.
  rewrite (map_ext _ score) in Hchk by (intros s; symmetry; apply Hscore).
  rewrite <- !Hscore in Hchk.
  repeat (apply andb_true_iff in Hchk; destruct Hchk as [Hchk ?]).
  apply Nat.eqb_eq in Hchk.
  assert (Hdecide : decide py order alg query context =
                    Some (evaluate alg (blueprint "balanced"))).
  { change (decide py order alg query context)
      with (Py.max_by float_gt overall_score
              (map (evaluate alg) (map blueprint strategy_types))).
    unfold strategy_types at 1. cbn [map].
    rewrite max_by_argmax.
    change (map overall_score _) with (map score strategy_types).
    rewrite Hchk. reflexivity. }
  repeat (split; [first [assumption | reflexivity]|]).
  split.
  - rewrite forallb_forall in H0. apply Forall_forall. intros s Hs.
    split; [|reflexivity].
    unfold _evaluate_clarity. rewrite !Hlen.
    specialize (H0 s Hs). apply Nat.eqb_eq in H0. now rewrite H0.
  - unfold analyze. rewrite Hdecide. eexists. split; [reflexivity|].
    split; [reflexivity|]. exact H.
Qed.

(** ** No dimension falls below the risk threshold *)

(** The loop of [_generate_actions] appends, to the base actions, the
    action list of every pattern in turn (nothing for a pattern without
    one). *)
Lemma collected_actions_eq (strategy : string) (patterns : list string) :
  collected_actions strategy patterns =
  Py.get base_actions strategy []
  ++ List.concat (map (fun pattern => Py.get pattern_actions pattern []) patterns).
Proof.
  unfold collected_actions. generalize (Py.get base_actions strategy []).
  induction patterns as [|p rest IH]; intros acc; cbn [fold_left map List.concat].
  - now rewrite app_nil_r.
  - rewrite IH. destruct (Py.has_key pattern_actions p) eqn:Hk.
    + now rewrite app_assoc.
    + now rewrite (get_without_key _ _ _ Hk).
Qed.

Lemma base_actions_distinct :
  Forall (fun s => NoDup (Py.get base_actions s []) /\
                   List.length (Py.get base_actions s []) = 3%nat)
         strategy_types.
Proof.
  repeat constructor; simpl; intuition discriminate.
Qed.

Lemma generate_actions_bounds (order : Py.SetOrder) (s : string) (patterns : list string) :
  In s strategy_types ->
  (3 <= List.length (_generate_actions order s patterns) <= 5)%nat.
Proof.
  intros Hs. unfold _generate_actions. rewrite length_firstn. split; [|lia].
  apply Nat.min_glb; [lia|].
  pose proof base_actions_distinct as Hbase. rewrite Forall_forall in Hbase.
  destruct (Hbase s Hs) as [Hnd Hlen]. rewrite <- Hlen.
  apply NoDup_incl_length; [exact Hnd|].
  intros a Ha. apply Py.list_set_in. rewrite collected_actions_eq.
  apply in_or_app. now left.
Qed.

Lemma action_focus_values (b : Blueprint) :
  In (_evaluate_action_focus b) [0.9; 0.7; 0.5]%float.
Proof.
  unfold _evaluate_action_focus.
  destruct (String.eqb (strategy b) "aggressive"), (String.eqb (strategy b) "balanced");
    simpl; auto.
Qed.

Lemma stability_values (b : Blueprint) :
  In (_evaluate_stability b) [0.9; 0.7; 0.4]%float.
Proof.
  unfold _evaluate_stability.
  destruct (String.eqb (risk_level b) "low"), (String.eqb (risk_level b) "medium");
    simpl; auto.
Qed.

Lemma adaptability_values (b : Blueprint) :
  In (_evaluate_adaptability b) [0.8; 0.5]%float.
Proof.
  unfold _evaluate_adaptability.
  destruct (Py.mem (strategy b) ["balanced"; "innovative"]); simpl; auto.
Qed.

Lemma purpose_values (b : Blueprint) :
  In (_evaluate_purpose b) [0.9; 0.6]%float.
Proof.
  unfold _evaluate_purpose.
  destruct (Py.mem "opportunity_potential" (focus_patterns b)
            || Py.mem "innovation_creativity" (focus_patterns b)); simpl; auto.
Qed.

Lemma clarity_values (b : Blueprint) :
  (3 <= List.length (key_actions b) <= 5)%nat ->
  In (_evaluate_clarity b) [(3 * 0.2)%float; 0.8%float; 1.0%float].
Proof.
  intros [Hlo Hhi]. unfold _evaluate_clarity.
  destruct (List.length (key_actions b)) as [|[|[|[|[|[|n]]]]]]; try lia.
  - left. reflexivity.
  - right. left. reflexivity.
  - right. right. left. reflexivity.
Qed.

(** With each score among its possible values, no risk is reported. *)
Lemma risks_of_possible_scores (a s c ad p : float) :
  In a [0.9; 0.7; 0.5]%float ->
  In s [0.9; 0.7; 0.4]%float ->
  In c [(3 * 0.2)%float; 0.8%float; 1.0%float] ->
  In ad [0.8; 0.5]%float ->
  In p [0.9; 0.6]%float ->
  let scores := [ ("action_focus", a); ("stability_foundation", s); ("clarity_logic", c);
                  ("adaptability_empathy", ad); ("purpose_potential", p) ] in
  _identify_risks scores = ["Low to moderate risks identified"] /\
  Forall (fun kv => (snd kv <? 0.3)%float = false) scores /\
  ((0.5 <=? a) && (0.4 <=? s) && (0.6 <=? c) && (0.5 <=? ad) && (0.6 <=? p))%float = true.
Proof.
  simpl In. intros Ha Hs Hc Had Hp.
  repeat match goal with
         | H : _ \/ _ |- _ => destruct H as [H|H]
         | H : False |- _ => contradiction
         end; subst;
    (split; [vm_compute; reflexivity
            |split; [repeat constructor|vm_compute; reflexivity]]).
Qed.

Lemma generated_blueprint_scores (order : Py.SetOrder) (alg : Py.SumAlgorithm)
    (s : string) (net : Network) (q : string) :
  In s strategy_types ->
  let b := _generate_blueprint order s net q in
  Forall (fun kv => (snd kv <? 0.3)%float = false) (scores (evaluate alg b)) /\
  risks (evaluate alg b) = ["Low to moderate risks identified"] /\
  (0.5 <=? _evaluate_action_focus b)%float = true /\
  (0.4 <=? _evaluate_stability b)%float = true /\
  (0.6 <=? _evaluate_clarity b)%float = true /\
  (0.5 <=? _evaluate_adaptability b)%float = true /\
  (0.6 <=? _evaluate_purpose b)%float = true /\
  (3 <= List.length (key_actions b))%nat.
Proof.
  intros Hs b.
  assert (Hlen : (3 <= List.length (key_actions b) <= 5)%nat)
    by apply (generate_actions_bounds order s (central_patterns net) Hs).
  destruct (risks_of_possible_scores _ _ _ _ _
              (action_focus_values b) (stability_values b) (clarity_values b Hlen)
              (adaptability_values b) (purpose_values b)) as (Hrisks & Hall & Hmin).
  repeat (apply andb_true_iff in Hmin; destruct Hmin as [Hmin ?]).
  repeat split; try assumption; lia.
Qed.

(** A network without central patterns: no pattern adds an action. *)
Definition bare_network : Network :=
  {| nodes := []; connections := []; central_patterns := []; network_density := 0%float |}.

(** C10: the risks of every FinalDecision are the single fallback message.
    For every network and each of the five strategies, the generated
    blueprint lists at least three actions (each strategy has three
    distinct base actions), its five scores are at least 0.5 (action
    focus), 0.4 (stability), 0.6 (clarity), 0.5 (adaptability) and 0.6
    (purpose), none is below 0.3, and its risk list is the fallback.  The
    five bounds are met on blueprints of a network without central
    patterns (the clarity of three actions, the double 3 * 0.2, is 0.6 to
    the last place). *)
Theorem C10_risks_always_fallback (py : Py.Interpreter)
    (order : Py.SetOrder) (alg : Py.SumAlgorithm) (C : Type)
    (query domain : string) (context : list (string * C)) :
  (exists fd,
      analyze py order alg query domain context = Some fd /\
      fd_risks fd = ["Low to moderate risks identified"]) /\
  Forall (fun s => List.length (Py.get base_actions s []) = 3%nat) strategy_types /\
  (forall (net : Network) (q : string),
      Forall (fun s =>
                let b := _generate_blueprint order s net q in
                Forall (fun kv => (snd kv <? 0.3)%float = false) (scores (evaluate alg b)) /\
                risks (evaluate alg b) = ["Low to moderate risks identified"] /\
                (0.5 <=? _evaluate_action_focus b)%float = true /\
                (0.4 <=? _evaluate_stability b)%float = true /\
                (0.6 <=? _evaluate_clarity b)%float = true /\
                (0.5 <=? _evaluate_adaptability b)%float = true /\
                (0.6 <=? _evaluate_purpose b)%float = true /\
                (3 <= List.length (key_actions b))%nat)
             strategy_types) /\
  (let b := fun s => _generate_blueprint order s bare_network "" in
   _evaluate_action_focus (b "conservative") = 0.5%float /\
   _evaluate_stability (b "aggressive") = 0.4%float /\
   _evaluate_clarity (b "balanced") = (3 * 0.2)%float /\
   close_to ulp (3 * 0.2)%float (6 # 10) = true /\
   _evaluate_adaptability (b "conservative") = 0.5%float /\
   _evaluate_purpose (b "balanced") = 0.6%float).
Proof.
  split; [|split; [|split]].
  - destruct (decide_themes_total order alg (_extract_themes py query)) as [d Hd].
    rewrite <- (decide_from_themes py order alg C query context) in Hd.
    unfold analyze. rewrite Hd. eexists. split; [reflexivity|].
    cbn [fst _conscious_field_layer fd_risks].
    unfold decide in Hd. apply metatron_in in Hd. destruct Hd as (b & Hb & ->).
    apply in_map_iff in Hb. destruct Hb as (s & <- & Hs).
    apply (generated_blueprint_scores order alg s _ query Hs).
  - eapply Forall_impl; [|exact base_actions_distinct]. intros s [_ H]. exact H.
  - intros net q. apply Forall_forall. intros s Hs.
    apply (generated_blueprint_scores order alg s net q Hs).
  - cbv zeta. repeat (split; [reflexivity|]).
    split; [|split; [vm_compute; reflexivity|split; reflexivity]].
    unfold _evaluate_clarity, _generate_blueprint, _generate_actions.
    cbn [key_actions central_patterns bare_network].
    rewrite length_firstn, (list_set_length order insertion_order). reflexivity.
Qed.

(** ** Which patterns contribute actions *)

(** The base actions of a strategy followed by the action lists of the
    given patterns. *)
Definition action_pool (strategy : string) (patterns : list string) : list string :=
  Py.get base_actions strategy []
  ++ List.concat (map (fun pattern => Py.get pattern_actions pattern []) patterns).

(** The key actions as the specification words them: the deduplicated
    union of the base actions and the action lists keyed by the focus
    patterns, truncated to five entries. *)
Definition spec_key_actions (strategy : string) (focus : list string) : list string :=
  firstn 5 (Py.dedup (action_pool strategy focus)).

Lemma firstn_incl {A} (n : nat) (l : list A) : incl (firstn n l) l.
Proof.
  intros a Ha. rewrite <- (firstn_skipn n l). apply in_or_app. now left.
Qed.

Lemma firstn_nodup {A} (n : nat) (l : list A) : NoDup l -> NoDup (firstn n l).
Proof.
  intros H. rewrite <- (firstn_skipn n l) in H. now apply NoDup_app_remove_r in H.
Qed.

(** What [_generate_blueprint] lists as key actions: the first five of
    the set of the strategy's base actions and the actions of every
    central pattern. *)
Lemma key_actions_eq (order : Py.SetOrder) (strategy : string) (network : Network)
    (query : string) :
  key_actions (_generate_blueprint order strategy network query) =
  firstn 5 (Py.list_set order (action_pool strategy (central_patterns network))).
Proof.
  unfold _generate_blueprint, _generate_actions, action_pool.
  cbn [key_actions]. now rewrite collected_actions_eq.
Qed.

(** C2, as the code has it: the key actions of a generated blueprint are
    a duplicate-free selection of min(5, n) of the n distinct actions in
    the pool made of the strategy's base actions and the action lists of
    ALL central patterns (up to three), not only of the two focus
    patterns; all of the pool when n is at most 5.  The focus patterns are
    the first two central patterns, and no pattern outside the central
    patterns contributes. *)
Theorem C2_key_actions_from_central_patterns
    (order : Py.SetOrder) (strategy : string) (network : Network) (query : string) :
  let blueprint := _generate_blueprint order strategy network query in
  let pool := action_pool strategy (central_patterns network) in
  focus_patterns blueprint = firstn 2 (central_patterns network) /\
  NoDup (key_actions blueprint) /\
  List.length (key_actions blueprint) = Nat.min 5 (List.length (Py.dedup pool)) /\
  (forall a, In a (key_actions blueprint) ->
             In a (Py.get base_actions strategy []) \/
             exists pattern, In pattern (central_patterns network) /\
                             In a (Py.get pattern_actions pattern [])) /\
  ((List.length (Py.dedup pool) <= 5)%nat ->
   forall a, In a pool -> In a (key_actions blueprint)).
Proof.
  intros blueprint pool.
  assert (Hkey : key_actions blueprint = firstn 5 (Py.list_set order pool))
    by apply key_actions_eq.
  assert (Hlen : List.length (Py.list_set order pool) = List.length (Py.dedup pool))
    by apply (list_set_length order insertion_order).
  split; [reflexivity|]. rewrite Hkey. split; [|split; [|split]].
  - apply firstn_nodup, Py.list_set_nodup.
  - now rewrite length_firstn, Hlen.
  - intros a Ha. apply firstn_incl, Py.list_set_in in Ha.
    unfold pool, action_pool in Ha. apply in_app_or in Ha.
    destruct Ha as [Ha|Ha]; [now left|right].
    apply in_concat in Ha. destruct Ha as (l & Hl & Ha).
    apply in_map_iff in Hl. destruct Hl as (p & <- & Hp). now exists p.
  - intros Hsmall a Ha. rewrite firstn_all2 by lia. now apply Py.list_set_in.
Qed.

(** C2 as stated fails.  The query "cut risk" has the themes cost and
    risk; its central patterns are opportunity_potential, risk_challenge
    and growth_expansion.  Neither focus pattern has an action list, so
    the claimed key actions of the balanced blueprint are its three base
    actions; the code also lists the two actions of growth_expansion, the
    third central pattern, under every set order.  The query is ASCII
    text, so every interpreter builds this network. *)
Lemma C2_third_central_pattern_contributes :
  let network := @network_of unit ascii_interpreter Py.LeftFold "cut risk" [] in
  let blueprint := fun order => _generate_blueprint order "balanced" network "cut risk" in
  _extract_themes ascii_interpreter "cut risk" = ["cost"; "risk"] /\
  central_patterns network =
    ["opportunity_potential"; "risk_challenge"; "growth_expansion"] /\
  focus_patterns (blueprint insertion_order) = ["opportunity_potential"; "risk_challenge"] /\
  spec_key_actions "balanced" (focus_patterns (blueprint insertion_order)) =
    ["Plan carefully"; "Balance resources"; "Set realistic targets"] /\
  key_actions (blueprint insertion_order) =
    ["Plan carefully"; "Balance resources"; "Set realistic targets";
     "Focus on market expansion"; "Increase capacity"] /\
  Py.get pattern_actions "growth_expansion" [] =
    ["Focus on market expansion"; "Increase capacity"] /\
  ~ In "growth_expansion" (focus_patterns (blueprint insertion_order)) /\
  ~ In "Focus on market expansion"
       (spec_key_actions "balanced" (focus_patterns (blueprint insertion_order))) /\
  (forall order : Py.SetOrder,
      In "Focus on market expansion" (key_actions (blueprint order)) /\
      List.length (key_actions (blueprint order)) = 5%nat) /\
  (forall py : Py.Interpreter,
      _extract_themes py "cut risk" = ["cost"; "risk"] /\
      @network_of unit py Py.LeftFold "cut risk" [] = network).
Proof.
  cbv zeta.
  assert (Hcentral : central_patterns
                       (@network_of unit ascii_interpreter Py.LeftFold "cut risk" []) =
                     ["opportunity_potential"; "risk_challenge"; "growth_expansion"])
    by (vm_compute; reflexivity).
  repeat (split; [vm_compute; reflexivity|]).
  split; [vm_compute; intuition discriminate|].
  split; [vm_compute; intuition discriminate|].
  split.
  2:{ intros py. rewrite !network_of_themes.
      rewrite (extract_themes_ascii py "cut risk" eq_refl). split; reflexivity. }
  intros order. rewrite key_actions_eq, Hcentral.
  set (pool := action_pool "balanced"
                 ["opportunity_potential"; "risk_challenge"; "growth_expansion"]).
  assert (Hlen : List.length (Py.list_set order pool) = 5%nat)
    by (rewrite (list_set_length order insertion_order); vm_compute; reflexivity).
  rewrite firstn_all2 by lia. split; [|exact Hlen].
  apply Py.list_set_in. vm_compute. auto 10.
Qed.

(** ** The pattern network *)

(** A pattern score map: the seven keys in dict order with the given
    scores. *)
Definition score_map (s0 s1 s2 s3 s4 s5 s6 : float) : list (string * float) :=
  combine pattern_names [s0; s1; s2; s3; s4; s5; s6].

(** Every ordered pair of distinct names, row by row. *)
Definition ordered_pairs (names : list string) : list (string * string) :=
  flat_map
    (fun a => flat_map (fun b => if String.eqb a b then [] else [(a, b)]) names)
    names.

(** The base strength as the specification words it: 0.8 when the
    unordered pair is one of the three complementary pairs, else 0.3. *)
Definition complementary (a b : string) : bool :=
  existsb
    (fun p => (String.eqb a (fst p) && String.eqb b (snd p))
              || (String.eqb a (snd p) && String.eqb b (fst p)))
    complementary_pairs.

Definition spec_base_strength (a b : string) : float :=
  if complementary a b then 0.8%float else 0.3%float.

(** C6: for any scores of the seven patterns, the network holds one
    connection for each of the 42 ordered pairs (A, B) of distinct
    patterns, of strength base * (scoreA + scoreB) / 2 with base 0.8 for
    the three complementary pairs (in either order) and 0.3 otherwise; the
    density is the mean of the 42 strengths, 0.0 for an empty connection
    map, and 0.0 when all seven scores are 0.0. *)
Theorem C6_network_connections_and_density (py : Py.Interpreter)
    (alg : Py.SumAlgorithm) (s0 s1 s2 s3 s4 s5 s6 : float) :
  let patterns := score_map s0 s1 s2 s3 s4 s5 s6 in
  let network := _flower_of_life_layer py alg patterns in
  map fst (connections network) = ordered_pairs pattern_names /\
  List.length (connections network) = 42%nat /\
  filter (fun ab => complementary (fst ab) (snd ab)) (map fst (connections network)) =
    [ ("growth_expansion", "stability_structure");
      ("stability_structure", "growth_expansion");
      ("innovation_creativity", "efficiency_optimization");
      ("efficiency_optimization", "innovation_creativity");
      ("risk_challenge", "opportunity_potential");
      ("opportunity_potential", "risk_challenge") ] /\
  Forall (fun c =>
            let a := fst (fst c) in
            let b := snd (fst c) in
            snd c = (spec_base_strength a b * (Py.get patterns a 0 + Py.get patterns b 0) / 2)%float)
         (connections network) /\
  network_density network = (Py.sum alg (map snd (connections network)) / 42)%float /\
  _calculate_network_density alg [] = 0%float /\
  network_density (_flower_of_life_layer py alg (score_map 0 0 0 0 0 0 0)) = 0%float /\
  score_map 0 0 0 0 0 0 0 = initial_patterns.
Proof.
  intros patterns network.
  assert (Hconn : connections network = all_connections patterns) by reflexivity.
  rewrite Hconn.
  split; [vm_compute; reflexivity|].
  split; [vm_compute; reflexivity|].
  split; [vm_compute; reflexivity|].
  split; [unfold patterns; cbv [all_connections]; repeat constructor|].
  split; [reflexivity|].
  split; [reflexivity|].
  split; [destruct alg; vm_compute; reflexivity|reflexivity].
Qed.

(** ** Pattern scores fold the insights with max *)

(** The matched indicators of an insight, as the specification words
    them: [hits] lists, once each, the indicators of the pattern that
    occur in the lower-cased insight. *)
Definition matched_indicators (py : Py.Interpreter) (insight : string)
    (indicators hits : list string) : Prop :=
  NoDup hits /\
  forall indicator,
    In indicator hits <->
    In indicator indicators /\ occurs indicator (Py.lower py insight).

Lemma indicators_distinct :
  Forall (fun p => NoDup (Py.get pattern_indicators p [])) pattern_names.
Proof.
  unfold pattern_names. cbn [map fst initial_patterns].
  repeat (apply Forall_cons;
          [cbn; repeat (apply NoDup_cons; [simpl; intuition discriminate|]);
           apply NoDup_nil|]).
  apply Forall_nil.
Qed.

(** The count the scorer takes is the number of matched indicators. *)
Lemma count_matches_spec (py : Py.Interpreter) (insight : string) (indicators : list string) :
  NoDup indicators ->
  exists hits,
    matched_indicators py insight indicators hits /\
    count_matches py insight indicators = List.length hits.
Proof.
  intros Hnd.
  exists (filter (fun indicator => Py.contains indicator (Py.lower py insight)) indicators).
  split; [|reflexivity]. split; [now apply NoDup_filter|].
  intros indicator. now rewrite filter_In, contains_spec.
Qed.

(** C7: the pattern scorer folds the per-insight strengths with max.  For
    every list of insights the seven keys are present, and the score of
    each pattern is the fold of the strengths with [max], equal to the
    greatest matched-indicator count over the insights divided by the
    number of indicators: it is at least the strength of every insight,
    it is the strength of one of them (or 0.0), it lies in [0, 1], and
    appending one more insight never lowers it.  The matched-indicator
    count of an insight is the number of the pattern's indicators (four
    or five distinct words) that occur in the lower-cased insight. *)
Theorem C7_pattern_scores_fold_with_max (py : Py.Interpreter) (insights : list string) :
  map fst (_seed_of_life_layer py insights) =
    [ "growth_expansion"; "stability_structure"; "connection_relationship";
      "innovation_creativity"; "efficiency_optimization"; "risk_challenge";
      "opportunity_potential" ] /\
  map (fun entry => List.length (snd entry)) pattern_indicators =
    [5; 4; 4; 5; 4; 5; 4]%nat /\
  Forall
    (fun pattern =>
       let indicators := Py.get pattern_indicators pattern [] in
       let strength := fun insight => _calculate_pattern_strength py insight pattern in
       let matched := fun insight => count_matches py insight indicators in
       let score := Py.get (_seed_of_life_layer py insights) pattern 0%float in
       In (pattern, indicators) pattern_indicators /\
       (forall insight,
           exists hits,
             matched_indicators py insight indicators hits /\
             matched insight = List.length hits) /\
       score = fold_left Py.max (map strength insights) 0%float /\
       score = (Py.of_nat (fold_left Nat.max (map matched insights) 0%nat)
                / Py.of_nat (List.length indicators))%float /\
       Forall (fun insight =>
                 strength insight =
                   (Py.of_nat (matched insight) / Py.of_nat (List.length indicators))%float /\
                 (strength insight <=? score)%float = true)
              insights /\
       (score = 0%float \/ exists insight, In insight insights /\ score = strength insight) /\
       ((0 <=? score) && (score <=? 1))%float = true /\
       forall extra,
         (score <=? Py.get (_seed_of_life_layer py (insights ++ [extra])) pattern 0%float)%float
         = true)
    (map fst (_seed_of_life_layer py insights)).
Proof.
  assert (Hkeys : map fst (_seed_of_life_layer py insights) = pattern_names).
  { rewrite seed_closed_form, map_map. cbn [fst]. now rewrite map_id. }
  rewrite Hkeys. split; [reflexivity|]. split; [reflexivity|].
  apply Forall_forall. intros pattern Hin indicators strength matched score.
  assert (Hscore : forall l, Py.get (_seed_of_life_layer py l) pattern 0%float =
                             pattern_score py pattern l)
    by (intros l; rewrite seed_closed_form;
        now apply (get_map_key (fun p => pattern_score py p l))).
  unfold score. rewrite !Hscore.
  destruct (pattern_score_ratio py pattern insights Hin) as (Hn & Hle & Hratio).
  fold indicators in Hn, Hle, Hratio.
  set (n := List.length indicators) in *.
  pose proof (fold_max_bounds (map matched insights) 0%nat) as (_ & Hall & Hatt).
  change (fold_left Nat.max (map matched insights) 0%nat)
    with (best_count py indicators insights) in Hall, Hatt |- *.
  set (best := best_count py indicators insights) in *.
  assert (Hstrength : forall i, strength i = ratio n (matched i)) by reflexivity.
  assert (Hmatched : forall i, (matched i <= n)%nat) by (intros i; apply count_matches_le).
  rewrite Hratio.
  split.
  { unfold indicators. unfold pattern_names in Hin. simpl in Hin.
    repeat (destruct Hin as [<-|Hin]; [simpl; auto 10|]). contradiction. }
  split.
  { intros insight. apply count_matches_spec.
    pose proof indicators_distinct as Hd. rewrite Forall_forall in Hd. now apply Hd. }
  split; [rewrite <- Hratio; reflexivity|].
  split; [apply (ratio_facts n best best Hn Hle Hle)|].
  split; [|split; [|split]].
  - apply Forall_forall. intros i Hi. rewrite Hstrength. split.
    + apply (ratio_facts n (matched i) best Hn (Hmatched i) Hle).
    + destruct (ratio_facts n (matched i) best Hn (Hmatched i) Hle) as (_ & -> & _).
      apply Nat.leb_le. rewrite Forall_forall in Hall. apply Hall.
      apply in_map_iff. now exists i.
  - destruct Hatt as [H0|Hatt].
    + left. rewrite H0.
      destruct Hn as [Hn|Hn]; rewrite Hn; reflexivity.
    + right. apply in_map_iff in Hatt. destruct Hatt as (i & Hi & Hin').
      exists i. split; [exact Hin'|]. now rewrite Hstrength, Hi.
  - apply (ratio_facts n best best Hn Hle Hle).
  - intros extra. rewrite Hscore.
    destruct (pattern_score_ratio py pattern (insights ++ [extra]) Hin) as (_ & Hle' & ->).
    fold indicators. fold n.
    destruct (ratio_facts n best (best_count py indicators (insights ++ [extra])) Hn Hle Hle')
      as (_ & -> & _).
    apply Nat.leb_le. unfold best, best_count.
    rewrite map_app, fold_left_app. cbn [map fold_left]. lia.
Qed.

(** ** Sharper facts and the scenarios of the specification *)

Lemma reachable_full_clarity (alg : Py.SumAlgorithm) :
  forallb (fun d => Nat.eqb (List.length (key_actions (solution d))) 5
                    && (close_to ulp (overall_score d) (76 # 100)
                        || close_to ulp (overall_score d) (82 # 100)))
          (reachable_decisions alg) = true.
Proof. destruct alg; vm_compute; reflexivity. Qed.

(** In every analysis some central pattern has an action list, so the
    winning blueprint lists five actions, its clarity is 1.0, and the
    confidence is 0.76 or 0.82 to the last place. *)
Lemma analysis_confidence_two_values (py : Py.Interpreter)
    (order : Py.SetOrder) (alg : Py.SumAlgorithm) (C : Type)
    (query : string) (context : list (string * C)) :
  exists best,
    decide py order alg query context = Some best /\
    List.length (key_actions (solution best)) = 5%nat /\
    _evaluate_clarity (solution best) = 1.0%float /\
    (close_to ulp (overall_score best) (76 # 100)
     || close_to ulp (overall_score best) (82 # 100)) = true.
Proof.
  destruct (decide_reachable py order alg C query context) as (d & d0 & Hd & Hin & Hsame).
  pose proof (reachable_full_clarity alg) as H. rewrite forallb_forall in H.
  specialize (H d0 Hin). apply andb_true_iff in H. destruct H as [Hlen Hconf].
  apply Nat.eqb_eq in Hlen.
  destruct Hsame as ((_ & _ & _ & Hk & _) & _ & Hov & _).
  exists d. rewrite Hov, Hk. repeat split; try assumption.
  unfold _evaluate_clarity. rewrite Hk, Hlen. reflexivity.
Qed.

(** An ASCII query is analysed alike by every interpreter. *)
Lemma analyze_ascii (py : Py.Interpreter) (order : Py.SetOrder) (alg : Py.SumAlgorithm)
    (C : Type) (query domain : string) (context : list (string * C)) :
  Py.is_ascii query = true ->
  analyze py order alg query domain context =
  analyze ascii_interpreter order alg query domain context.
Proof.
  intros Hascii. unfold analyze. rewrite !decide_from_themes.
  now rewrite (extract_themes_ascii py query Hascii).
Qed.

Example scenario_rnd_budget (py : Py.Interpreter) :
  let query := "Should we cut our R&D budget to increase quarterly profits?" in
  _extract_themes py query = ["profit"; "growth"; "cost"] /\
  analyze py insertion_order Py.LeftFold query "business" (@nil (string * unit)) =
    Some {| final_decision :=
              "Business strategy: Balanced approach focusing on stability_structure, opportunity_potential";
            confidence := ((0 + 0.7 + 0.7 + 1 + 0.8 + 0.9) / 5)%float;
            fd_risks := ["Low to moderate risks identified"];
            fd_recommendations := ["Well-balanced approach"];
            geometric_balance :=
              [ ("action_focus", 0.7%float); ("stability_foundation", 0.7%float);
                ("clarity_logic", 1%float); ("adaptability_empathy", 0.8%float);
                ("purpose_potential", 0.9%float) ] |}.
Proof.
  cbv zeta. rewrite extract_themes_ascii, analyze_ascii by reflexivity.
  split; vm_compute; reflexivity.
Qed.

Example scenario_empty_query (py : Py.Interpreter) :
  analyze py insertion_order Py.Neumaier "" "personal" (@nil (string * unit)) =
    Some {| final_decision :=
              "Personal decision: Consider life balance and long-term happiness";
            confidence := 0.76%float;
            fd_risks := ["Low to moderate risks identified"];
            fd_recommendations := ["Enhance long-term strategic alignment"];
            geometric_balance :=
              [ ("action_focus", 0.7%float); ("stability_foundation", 0.7%float);
                ("clarity_logic", 1%float); ("adaptability_empathy", 0.8%float);
                ("purpose_potential", 0.6%float) ] |}.
Proof. rewrite analyze_ascii by reflexivity. vm_compute. reflexivity. Qed.

Example scenario_unknown_domain (py : Py.Interpreter) :
  option_map final_decision
    (analyze py insertion_order Py.LeftFold "grow opportunity" "finance"
             (@nil (string * unit))) =
  Some "Business strategy: Balanced approach focusing on stability_structure, growth_expansion".
Proof. rewrite analyze_ascii by reflexivity. vm_compute. reflexivity. Qed.

(** [process] on the empty query: the line is logged, then the call
    raises. *)
Example scenario_process (py : Py.Interpreter) :
  process py insertion_order Py.LeftFold "" "business" (@nil (string * unit)) =
    (["Learned from business analysis: ..."],
     inl (Py.AttributeError "dict" "final_decision")).
Proof. now rewrite process_raises. Qed.

(** [s[:n]] counts code points: in the four bytes of the UTF-8 text
    a, e-acute, z the first two code points are the first three bytes. *)
Example scenario_code_points :
  let text := String "a" (String (ascii_of_nat 195) (String (ascii_of_nat 169) "z")) in
  Py.len text = 3%nat /\ String.length text = 4%nat /\
  Py.str_prefix 2 text = String "a" (String (ascii_of_nat 195) (String (ascii_of_nat 169) "")).
Proof. repeat split. Qed.

(** The two summation algorithms can differ in the last place. *)
Example scenario_sum_algorithms :
  Py.sum Py.LeftFold [0.7; 0.7; 1; 0.8; 0.9]%float = 4.1000000000000005%float /\
  Py.sum Py.Neumaier [0.7; 0.7; 1; 0.8; 0.9]%float = 4.1%float.
Proof. split; vm_compute; reflexivity. Qed.

(** * Further properties of the engine *)

(** ** Theme extraction *)

Lemma occurs_app (needle pre hay post : string) :
  occurs needle hay -> occurs needle (pre ++ hay ++ post)%string.
Proof.
  intros (a & b & ->). exists (pre ++ a)%string, (b ++ post)%string.
  now rewrite !string_app_assoc.
Qed.

Lemma ascii_lower_app (a b : string) :
  Py.ascii_lower (a ++ b) = (Py.ascii_lower a ++ Py.ascii_lower b)%string.
Proof. induction a as [|c a IH]; simpl; [reflexivity|now rewrite IH]. Qed.

Lemma is_ascii_app (a b : string) :
  Py.is_ascii (a ++ b) = Py.is_ascii a && Py.is_ascii b.
Proof.
  induction a as [|c a IH]; simpl; [reflexivity|]. now rewrite IH, andb_assoc.
Qed.

(** Whether some keyword of a theme occurs in the lowered query. *)
Definition theme_matches (py : Py.Interpreter) (query : string)
    (entry : string * list string) : bool :=
  Py.any (fun keyword => Py.contains keyword (Py.lower py query)) (snd entry).

Lemma theme_matches_spec (py : Py.Interpreter) (query : string)
    (entry : string * list string) :
  theme_matches py query entry = true <->
  exists keyword, In keyword (snd entry) /\ occurs keyword (Py.lower py query).
Proof.
  unfold theme_matches, Py.any. rewrite existsb_exists.
  split; intros (keyword & Hk & Hc); exists keyword; split; try exact Hk;
    now apply contains_spec.
Qed.

Lemma extract_themes_eq (py : Py.Interpreter) (query : string) :
  _extract_themes py query =
  match map fst (filter (theme_matches py query) theme_keywords) with
  | [] => ["general"]
  | themes => themes
  end.
Proof.
  change (_extract_themes py query)
    with (match map fst (filter (theme_matches py query) theme_keywords) with
          | [] => ["general"]
          | _ => map fst (filter (theme_matches py query) theme_keywords)
          end).
  now destruct (map fst (filter (theme_matches py query) theme_keywords)).
Qed.

Lemma theme_names_nodup : NoDup ("general" :: map fst theme_keywords).
Proof. repeat constructor; simpl; intuition discriminate. Qed.

Lemma filter_map_nodup {Entry Label : Type}
    (label : Entry -> Label) (keep : Entry -> bool) (table : list Entry)
    (Hdistinct : NoDup (map label table)) :
  NoDup (map label (filter keep table)).
Proof.
  induction table as [|entry table IH]; cbn [filter map]; [constructor|].
  apply NoDup_cons_iff in Hdistinct. destruct Hdistinct as [Hfresh Hrest].
  destruct (keep entry); [|now apply IH].
  cbn [map]. apply NoDup_cons; [|now apply IH].
  intros Hseen. apply in_map_iff in Hseen. destruct Hseen as (other & Hlabel & Hother).
  apply filter_In in Hother. apply Hfresh. apply in_map_iff.
  exists other. tauto.
Qed.

(** X1: [_extract_themes] reports a theme exactly when one of its keywords
    occurs in [query.lower()], and "general" exactly when no keyword of
    any theme does; the result is never empty, has no repetition, has at
    most five entries, and lists the themes in the order of the keyword
    table. *)
Theorem X1_themes_characterised (py : Py.Interpreter) (query : string) :
  let themes := _extract_themes py query in
  (forall theme,
      In theme themes <->
      (exists entry, In entry theme_keywords /\ fst entry = theme /\
                     exists keyword, In keyword (snd entry) /\
                                     occurs keyword (Py.lower py query))
      \/ (theme = "general" /\
          forall entry keyword, In entry theme_keywords -> In keyword (snd entry) ->
                                ~ occurs keyword (Py.lower py query))) /\
  NoDup themes /\
  (1 <= List.length themes <= 5)%nat /\
  (themes = ["general"] \/ In themes (sublists (map fst theme_keywords))).
Proof.
  intros themes. unfold themes. rewrite extract_themes_eq.
  set (hits := filter (theme_matches py query) theme_keywords).
  assert (Hhit : forall entry, In entry hits <->
                   In entry theme_keywords /\
                   exists keyword, In keyword (snd entry) /\
                                   occurs keyword (Py.lower py query)).
  { intros entry. unfold hits. now rewrite filter_In, theme_matches_spec. }
  assert (Hsub : In (map fst hits) (sublists (map fst theme_keywords)))
    by apply sublists_filter.
  assert (Hnd : NoDup (map fst hits)).
  { apply filter_map_nodup. pose proof theme_names_nodup as H. now inversion H. }
  assert (Hlen : (List.length (map fst hits) <= 5)%nat).
  { rewrite length_map. unfold hits.
    apply (Nat.le_trans _ _ _ (filter_length_le _ _)). reflexivity. }
  destruct hits as [|h hits'] eqn:Hhits; cbn [map].
  - split; [|split; [repeat constructor; simpl; tauto|split; [simpl; lia|now left]]].
    intros theme. split.
    + intros [<-|[]]. right. split; [reflexivity|].
      intros entry keyword He Hk Hc.
      apply (proj2 (Hhit entry)). split; [exact He|now exists keyword].
    + intros [(entry & He & _ & keyword & Hk & Hc)|[-> _]]; [|now left].
      exfalso. apply (proj2 (Hhit entry)). split; [exact He|now exists keyword].
  - split; [|split; [exact Hnd|split; [simpl in *; lia|now right]]].
    intros theme. change (fst h :: map fst hits') with (map fst (h :: hits')).
    rewrite in_map_iff. split.
    + intros (entry & <- & Hin). left. exists entry.
      apply Hhit in Hin. tauto.
    + intros [(entry & He & <- & Hk)|[-> Hnone]].
      * exists entry. split; [reflexivity|]. apply Hhit. tauto.
      * exfalso. assert (Hh : In h (h :: hits')) by now left.
        apply Hhit in Hh. destruct Hh as (He & keyword & Hk & Hc).
        exact (Hnone h keyword He Hk Hc).
Qed.

Lemma in_matching_themes (py : Py.Interpreter) (query theme : string) :
  In theme (map fst (filter (theme_matches py query) theme_keywords)) <->
  exists entry, In entry theme_keywords /\ fst entry = theme /\
                theme_matches py query entry = true.
Proof.
  rewrite in_map_iff. split; intros (entry & H1 & H2); exists entry.
  - apply filter_In in H2. tauto.
  - split; [tauto|]. apply filter_In. tauto.
Qed.

Lemma in_extract_matching (py : Py.Interpreter) (query theme : string) :
  In theme (map fst (filter (theme_matches py query) theme_keywords)) ->
  In theme (_extract_themes py query).
Proof.
  rewrite extract_themes_eq.
  now destruct (map fst (filter (theme_matches py query) theme_keywords)).
Qed.

Lemma analyze_from_themes (py : Py.Interpreter) (order : Py.SetOrder)
    (alg : Py.SumAlgorithm) (C : Type)
    (query domain : string) (context : list (string * C)) :
  analyze py order alg query domain context =
  option_map (fun decision => fst (_conscious_field_layer decision "" domain))
             (decide_themes order alg (_extract_themes py query)).
Proof.
  unfold analyze. rewrite decide_from_themes.
  now destruct (decide_themes order alg (_extract_themes py query)).
Qed.

(** X2: the FinalDecision depends on the query only through its theme
    list, and not at all on the context: two queries with the same themes
    get the same FinalDecision, whatever the two context dicts hold. *)
Theorem X2_query_matters_through_themes_only
    (py : Py.Interpreter) (order : Py.SetOrder) (alg : Py.SumAlgorithm) (C1 C2 : Type)
    (query1 query2 domain : string)
    (context1 : list (string * C1)) (context2 : list (string * C2)) :
  _extract_themes py query1 = _extract_themes py query2 ->
  analyze py order alg query1 domain context1 = analyze py order alg query2 domain context2.
Proof.
  intros H. rewrite !analyze_from_themes. now rewrite H.
Qed.

Lemma X2_witness :
  _extract_themes ascii_interpreter "cut costs" =
  _extract_themes ascii_interpreter "We must REDUCE spending" /\
  analyze ascii_interpreter insertion_order Py.LeftFold "cut costs" "business"
          (@nil (string * unit)) =
  analyze ascii_interpreter insertion_order Py.LeftFold "We must REDUCE spending" "business"
          [("region", 7%nat)].
Proof.
  split; [vm_compute; reflexivity|].
  apply X2_query_matters_through_themes_only. vm_compute. reflexivity.
Defined.

(** X3: the query is read only through [query.lower()]: two queries with
    the same lower-cased text, such as two spellings that differ in letter
    case, have the same themes and the same FinalDecision, whatever the
    two context dicts hold. *)
Theorem X3_query_case_insensitive
    (py : Py.Interpreter) (order : Py.SetOrder) (alg : Py.SumAlgorithm) (C1 C2 : Type)
    (query1 query2 domain : string)
    (context1 : list (string * C1)) (context2 : list (string * C2)) :
  Py.lower py query1 = Py.lower py query2 ->
  _extract_themes py query1 = _extract_themes py query2 /\
  analyze py order alg query1 domain context1 = analyze py order alg query2 domain context2.
Proof.
  intros Hlower.
  assert (H : _extract_themes py query1 = _extract_themes py query2)
    by (unfold _extract_themes; now rewrite Hlower).
  split; [exact H|]. rewrite !analyze_from_themes. now rewrite H.
Qed.

Lemma X3_witness :
  Py.lower ascii_interpreter "Cut RISK now" = Py.lower ascii_interpreter "cut risk NOW" /\
  _extract_themes ascii_interpreter "Cut RISK now" = ["cost"; "risk"] /\
  analyze ascii_interpreter insertion_order Py.LeftFold "Cut RISK now" "business"
          (@nil (string * unit)) =
  analyze ascii_interpreter insertion_order Py.LeftFold "cut risk NOW" "business"
          [("region", 7%nat)].
Proof.
  split; [reflexivity|]. split; [vm_compute; reflexivity|].
  apply (X3_query_case_insensitive ascii_interpreter insertion_order Py.LeftFold
           unit nat "Cut RISK now" "cut risk NOW" "business" [] [("region", 7%nat)]
           eq_refl).
Defined.

(** X4: ASCII text added before or after an ASCII query never removes a
    theme: every theme of the query other than the fallback "general" is
    still a theme of the longer query. *)
Theorem X4_more_text_keeps_themes
    (py : Py.Interpreter) (before query after theme : string) :
  Py.is_ascii before = true ->
  Py.is_ascii query = true ->
  Py.is_ascii after = true ->
  In theme (_extract_themes py query) ->
  theme <> "general" ->
  In theme (_extract_themes py (before ++ query ++ after)).
Proof.
  intros Hb Hq Ha Hin Hne. rewrite extract_themes_eq in Hin.
  assert (Hm : In theme (map fst (filter (theme_matches py query) theme_keywords))).
  { destruct (map fst (filter (theme_matches py query) theme_keywords)); [|exact Hin].
    destruct Hin as [<-|[]]. contradiction. }
  apply in_extract_matching, in_matching_themes.
  apply in_matching_themes in Hm. destruct Hm as (entry & He & Hf & Hm).
  exists entry. split; [exact He|]. split; [exact Hf|].
  apply theme_matches_spec in Hm. apply theme_matches_spec.
  destruct Hm as (keyword & Hk & Hc). exists keyword. split; [exact Hk|].
  assert (Hall : Py.is_ascii (before ++ query ++ after) = true)
    by (rewrite !is_ascii_app, Hb, Hq, Ha; reflexivity).
  rewrite (Py.lower_ascii py _ Hall), !ascii_lower_app.
  rewrite (Py.lower_ascii py _ Hq) in Hc. now apply occurs_app.
Qed.

Lemma X4_witness :
  Py.is_ascii "Should we " = true /\ Py.is_ascii "cut" = true /\
  Py.is_ascii " the budget?" = true /\
  In "cost" (_extract_themes ascii_interpreter "cut") /\ "cost" <> "general" /\
  In "cost" (_extract_themes ascii_interpreter ("Should we " ++ "cut" ++ " the budget?")).
Proof.
  repeat (split; [reflexivity|]).
  split; [vm_compute; auto|]. split; [discriminate|].
  apply X4_more_text_keeps_themes; try reflexivity; [vm_compute; auto|discriminate].
Defined.

(** ** Insights and pattern strengths *)


Lemma best_count_spec (py : Py.Interpreter) (indicators : list string) (insights : list string) :
  let best := best_count py indicators insights in
  (forall insight, In insight insights -> (count_matches py insight indicators <= best)%nat) /\
  (best = 0%nat \/
   exists insight, In insight insights /\ count_matches py insight indicators = best).
Proof.
  intros best.
  destruct (fold_max_bounds
              (map (fun insight => count_matches py insight indicators) insights) 0%nat)
    as (_ & Hall & Hatt).
  fold (best_count py indicators insights) in Hall, Hatt. fold best in Hall, Hatt. split.
  - intros insight Hin. rewrite Forall_forall in Hall. apply Hall.
    apply in_map_iff. now exists insight.
  - destruct Hatt as [H|H]; [now left|right].
    apply in_map_iff in H. destruct H as (insight & H1 & H2). now exists insight.
Qed.

Lemma best_count_same_set (py : Py.Interpreter) (indicators : list string) (l1 l2 : list string) :
  (forall insight, In insight l1 <-> In insight l2) ->
  best_count py indicators l1 = best_count py indicators l2.
Proof.
  intros Hset.
  destruct (best_count_spec py indicators l1) as [Hle1 Hatt1].
  destruct (best_count_spec py indicators l2) as [Hle2 Hatt2].
  apply Nat.le_antisymm.
  - destruct Hatt1 as [->|(i & Hi & <-)]; [lia|]. apply Hle2, Hset, Hi.
  - destruct Hatt2 as [->|(i & Hi & <-)]; [lia|]. apply Hle1, Hset, Hi.
Qed.

(** X6: the pattern scores depend only on which insights are given, not
    on their order or on repetitions: two insight lists with the same
    members produce the same pattern score map. *)
Theorem X6_scores_ignore_order_and_repeats (py : Py.Interpreter) (insights1 insights2 : list string) :
  (forall insight, In insight insights1 <-> In insight insights2) ->
  _seed_of_life_layer py insights1 = _seed_of_life_layer py insights2.
Proof.
  intros Hset. rewrite !seed_closed_form. apply map_ext_in. intros pattern Hin.
  destruct (pattern_score_ratio py pattern insights1 Hin) as (_ & _ & ->).
  destruct (pattern_score_ratio py pattern insights2 Hin) as (_ & _ & ->).
  now rewrite (best_count_same_set py _ _ _ Hset).
Qed.

Lemma X6_witness :
  (forall insight,
      In insight ["new growth"; "future risk"] <->
      In insight ["future risk"; "new growth"; "future risk"]) /\
  _seed_of_life_layer ascii_interpreter ["new growth"; "future risk"] =
  _seed_of_life_layer ascii_interpreter ["future risk"; "new growth"; "future risk"].
Proof.
  assert (H : forall insight,
             In insight ["new growth"; "future risk"] <->
             In insight ["future risk"; "new growth"; "future risk"])
    by (intros insight; simpl; tauto).
  split; [exact H|]. apply X6_scores_ignore_order_and_repeats. exact H.
Defined.

Lemma ratio_finite (n k : nat) :
  n = 4%nat \/ n = 5%nat -> (k <= n)%nat -> is_finite (ratio n k) = true.
Proof.
  intros [-> | ->] Hk; do 6 (try destruct k as [|k]); try lia; reflexivity.
Qed.

Lemma known_pattern (pattern : string) :
  Py.has_key pattern_indicators pattern = true -> In pattern pattern_names.
Proof.
  unfold Py.has_key. rewrite existsb_exists. intros (entry & Hin & Heq).
  apply String.eqb_eq in Heq. subst pattern.
  change pattern_names with (map fst pattern_indicators). now apply in_map.
Qed.

Lemma strength_is_ratio (py : Py.Interpreter) (insight pattern : string) :
  In pattern pattern_names ->
  exists n k, (n = 4%nat \/ n = 5%nat) /\ (k <= n)%nat /\
              _calculate_pattern_strength py insight pattern = ratio n k.
Proof.
  intros Hin. pose proof indicator_totals as Hn. rewrite Forall_forall in Hn.
  specialize (Hn pattern Hin). cbv zeta in Hn.
  exists (List.length (Py.get pattern_indicators pattern [])),
         (count_matches py insight (Py.get pattern_indicators pattern [])).
  split; [exact Hn|]. split; [apply count_matches_le|reflexivity].
Qed.

(** X7: the strength of any pattern name against any insight is a finite
    double in [0, 1], never a division by zero: a name without
    indicators has strength 0.0, the empty insight has strength 0.0 for
    every pattern, and the insight is read only through its lower-cased
    text. *)
Theorem X7_pattern_strength_bounds (py : Py.Interpreter) (insight pattern : string) :
  let strength := _calculate_pattern_strength py insight pattern in
  is_finite strength = true /\
  ((0 <=? strength) && (strength <=? 1))%float = true /\
  (Py.has_key pattern_indicators pattern = false -> strength = 0%float) /\
  _calculate_pattern_strength py "" pattern = 0%float /\
  (forall other,
      Py.lower py other = Py.lower py insight ->
      _calculate_pattern_strength py other pattern = strength).
Proof.
  intros strength.
  assert (Hunknown : forall i, Py.has_key pattern_indicators pattern = false ->
                               _calculate_pattern_strength py i pattern = 0%float).
  { intros i Hk. unfold _calculate_pattern_strength.
    rewrite (get_without_key _ _ _ Hk). reflexivity. }
  assert (Hlower : forall other,
             Py.lower py other = Py.lower py insight ->
             _calculate_pattern_strength py other pattern = strength)
    by (intros other H; unfold strength, _calculate_pattern_strength, count_matches;
        now rewrite H).
  assert (Hempty : _calculate_pattern_strength py "" pattern =
                   _calculate_pattern_strength ascii_interpreter "" pattern)
    by (unfold _calculate_pattern_strength; now rewrite (count_matches_ascii py "" _ eq_refl)).
  destruct (Py.has_key pattern_indicators pattern) eqn:Hk.
  - apply known_pattern in Hk.
    destruct (strength_is_ratio py insight pattern Hk) as (n & k & Hn & Hle & Hs).
    fold strength in Hs. rewrite Hs.
    split; [now apply ratio_finite|].
    split; [apply (ratio_facts n k k Hn Hle Hle)|].
    split; [discriminate|]. split; [|now rewrite <- Hs].
    rewrite Hempty. unfold pattern_names in Hk. simpl in Hk.
    repeat (destruct Hk as [<-|Hk]; [reflexivity|]). contradiction.
  - unfold strength. rewrite !(Hunknown _ eq_refl).
    repeat split; try reflexivity. intros other _. now apply Hunknown.
Qed.

(** ** The sort behind the central patterns *)

(** [y] does not rank above [x]: its score is not strictly greater. *)
Definition not_below {A} (x y : A * float) : Prop := (snd x <? snd y)%float = false.

(** The score of an item ties with [v]: neither is strictly smaller. *)
Definition ties_with {A} (v : float) (x : A * float) : bool :=
  negb (snd x <? v)%float && negb (v <? snd x)%float.

Lemma strict_weak_incl {K} (gt : K -> K -> bool) (small big : list K) :
  incl small big -> strict_weak gt big -> strict_weak gt small.
Proof.
  intros Hincl (Hirr & Htr & Hneg). repeat split; intros; eauto.
Qed.

Lemma insert_desc_sorted {A} (x : A * float) (l : list (A * float)) :
  strict_weak float_gt (map snd (x :: l)) ->
  StronglySorted not_below l ->
  StronglySorted not_below (Py.insert_desc x l).
Proof.
  intros Hsw Hs. induction Hs as [|y rest Hrest IH Hy]; simpl.
  - repeat constructor.
  - destruct Hsw as (Hirr & Htr & Hneg).
    assert (Hx : In (snd x) (map snd (x :: y :: rest))) by now left.
    assert (Hyin : In (snd y) (map snd (x :: y :: rest))) by (right; now left).
    assert (Hin : forall z, In z rest -> In (snd z) (map snd (x :: y :: rest)))
      by (intros z Hz; right; right; now apply in_map).
    destruct (snd x <? snd y)%float eqn:Hxy.
    + constructor.
      * apply IH. apply (strict_weak_incl float_gt _ (map snd (x :: y :: rest)));
          [|repeat split; assumption].
        intros k [<-|Hk]; [now left|right; right; exact Hk].
      * apply Forall_forall. intros z Hz.
        apply (Permutation_in _ (Permutation_sym
                                               (insert_desc_perm x rest))) in Hz.
        destruct Hz as [<-|Hz]; [|rewrite Forall_forall in Hy; now apply Hy].
        unfold not_below. destruct (snd y <? snd x)%float eqn:Hyx; [|reflexivity].
        assert (Hyy : float_gt (snd y) (snd y) = true)
          by (apply (Htr _ (snd x) _ Hyin Hx Hyin); assumption).
        now rewrite (Hirr _ Hyin) in Hyy.
    + constructor; [now constructor|]. constructor; [exact Hxy|].
      apply Forall_forall. intros z Hz. rewrite Forall_forall in Hy.
      specialize (Hy z Hz). unfold not_below in *.
      apply (Hneg (snd z) (snd y) (snd x) (Hin z Hz) Hyin Hx); assumption.
Qed.

Lemma stable_desc_sorted {A} (l : list (A * float)) :
  strict_weak float_gt (map snd l) ->
  StronglySorted not_below (Py.stable_desc l).
Proof.
  induction l as [|x rest IH]; intros Hsw; simpl; [constructor|].
  apply insert_desc_sorted.
  - apply (strict_weak_incl float_gt _ (map snd (x :: rest))); [|exact Hsw].
    intros k [<-|Hk]; [now left|right].
    apply (Permutation_in k
             (Permutation_map snd
                (Permutation_sym (stable_desc_perm rest)))).
    exact Hk.
  - apply IH. apply (strict_weak_incl float_gt _ (map snd (x :: rest))); [|exact Hsw].
    intros k Hk. now right.
Qed.

Lemma insert_desc_ties {A} (v : float) (x : A * float) (l : list (A * float)) :
  strict_weak float_gt (v :: map snd (x :: l)) ->
  filter (ties_with v) (Py.insert_desc x l) = filter (ties_with v) (x :: l).
Proof.
  intros Hsw. induction l as [|y rest IH]; [reflexivity|].
  cbn [Py.insert_desc]. destruct (snd x <? snd y)%float eqn:Hxy; [|reflexivity].
  cbn [filter]. rewrite IH.
  2:{ apply (strict_weak_incl float_gt _ (v :: map snd (x :: y :: rest))); [|exact Hsw].
      intros k [<-|[<-|Hk]]; simpl; auto. }
  cbn [filter].
  destruct (ties_with v x) eqn:Htx, (ties_with v y) eqn:Hty; try reflexivity.
  exfalso. destruct Hsw as (_ & _ & Hneg).
  unfold ties_with in Htx, Hty.
  apply andb_true_iff in Htx. destruct Htx as [Hxv _].
  apply andb_true_iff in Hty. destruct Hty as [_ Hvy].
  apply negb_true_iff in Hxv, Hvy.
  assert (H : float_gt (snd y) (snd x) = false).
  { apply (Hneg (snd y) v (snd x)); simpl; auto. }
  unfold float_gt in H. now rewrite H in Hxy.
Qed.

Lemma stable_desc_ties {A} (v : float) (l : list (A * float)) :
  strict_weak float_gt (v :: map snd l) ->
  filter (ties_with v) (Py.stable_desc l) = filter (ties_with v) l.
Proof.
  induction l as [|x rest IH]; intros Hsw; [reflexivity|].
  cbn [Py.stable_desc fold_right]. fold (Py.stable_desc rest).
  rewrite insert_desc_ties.
  - cbn [filter]. rewrite IH; [reflexivity|].
    apply (strict_weak_incl float_gt _ (v :: map snd (x :: rest))); [|exact Hsw].
    intros k [<-|Hk]; simpl; auto.
  - apply (strict_weak_incl float_gt _ (v :: map snd (x :: rest))); [|exact Hsw].
    intros k [<-|[<-|Hk]]; simpl; auto. right. right.
    apply (Permutation_in k
             (Permutation_map snd (Permutation_sym (stable_desc_perm rest)))).
    exact Hk.
Qed.

Lemma sorted_split_not_below {A} (l1 l2 : list (A * float)) :
  StronglySorted not_below (l1 ++ l2) ->
  StronglySorted not_below l1 /\
  forall top rest, In top l1 -> In rest l2 -> (snd top <? snd rest)%float = false.
Proof.
  induction l1 as [|x l1 IH]; cbn [app]; intros Hs.
  - split; [constructor|contradiction].
  - inversion Hs as [|? ? Hs' Hall]; subst. destruct (IH Hs') as [Hs1 Hcross]. split.
    + constructor; [exact Hs1|]. rewrite Forall_forall in Hall |- *.
      intros y Hy. apply Hall, in_or_app. now left.
    + intros top rest [<-|Htop] Hrest; [|now apply Hcross].
      rewrite Forall_forall in Hall. apply Hall, in_or_app. now right.
Qed.

(** What [sorted] does with keys that [<] orders. *)
Lemma sorted_desc_sorted (py : Py.Interpreter) (l : list (string * float)) :
  strict_weak float_gt (map snd l) ->
  StronglySorted not_below (Py.sorted_desc py l).
Proof.
  intros Hsw. rewrite (Py.sorted_desc_stable py l Hsw). now apply stable_desc_sorted.
Qed.

Lemma sorted_desc_ties (py : Py.Interpreter) (v : float) (l : list (string * float)) :
  strict_weak float_gt (v :: map snd l) ->
  filter (ties_with v) (Py.sorted_desc py l) = filter (ties_with v) l.
Proof.
  intros Hsw. rewrite Py.sorted_desc_stable; [now apply stable_desc_ties|].
  apply (strict_weak_incl float_gt _ (v :: map snd l)); [|exact Hsw].
  intros k Hk. now right.
Qed.

(** X8: for any pattern score map, whatever its scores, the central
    patterns are the names of the first min(3, n) entries of the
    rearrangement of the map that [sorted] returns: they are keys of the
    map, without repetition when the keys are distinct, and they do not
    depend on the connection map that [_find_central_patterns] also
    receives. *)
Theorem X8_central_patterns_shape
    (py : Py.Interpreter) (patterns : list (string * float))
    (connections1 connections2 : list ((string * string) * float)) :
  let central := _find_central_patterns py patterns connections1 in
  (exists sorted,
      Permutation sorted patterns /\ central = map fst (firstn 3 sorted)) /\
  List.length central = Nat.min 3 (List.length patterns) /\
  incl central (map fst patterns) /\
  (NoDup (map fst patterns) -> NoDup central) /\
  _find_central_patterns py patterns connections2 = central /\
  _find_central_patterns py [] connections1 = [].
Proof.
  intros central.
  assert (Hperm : Permutation (Py.sorted_desc py patterns) patterns)
    by apply Py.sorted_desc_perm.
  split; [exists (Py.sorted_desc py patterns); split; [exact Hperm|reflexivity]|].
  unfold central, _find_central_patterns. split; [|split; [|split]].
  - now rewrite length_map, length_firstn, (Permutation_length Hperm).
  - intros name Hin. apply in_map_iff in Hin. destruct Hin as (entry & <- & Hin).
    apply in_map. apply (Permutation_in _ Hperm). now apply firstn_incl in Hin.
  - intros Hnd.
    assert (Hnd' : NoDup (map fst (Py.sorted_desc py patterns)))
      by (apply (Permutation_NoDup (Permutation_map fst (Permutation_sym Hperm))), Hnd).
    rewrite <- (firstn_skipn 3 (Py.sorted_desc py patterns)), map_app in Hnd'.
    now apply NoDup_app_remove_r in Hnd'.
  - split; [reflexivity|].
    now rewrite (Permutation_nil (Permutation_sym (Py.sorted_desc_perm py []))).
Qed.

(** X9: when [<] orders the scores of the map as a strict weak order (no
    NaN among them), the sort puts no entry before one of strictly greater
    score, so the central patterns are the top three: no entry left out
    scores strictly more than a central one.  Entries that tie with a
    given score keep, among themselves, the order of the dict. *)
Theorem X9_central_patterns_are_top (py : Py.Interpreter)
    (patterns : list (string * float)) (connections : list ((string * string) * float)) :
  strict_weak float_gt (map snd patterns) ->
  let sorted := Py.sorted_desc py patterns in
  _find_central_patterns py patterns connections = map fst (firstn 3 sorted) /\
  StronglySorted not_below sorted /\
  (forall top rest, In top (firstn 3 sorted) -> In rest (skipn 3 sorted) ->
                    (snd top <? snd rest)%float = false) /\
  (forall entry, In entry patterns ->
                 filter (ties_with (snd entry)) sorted =
                 filter (ties_with (snd entry)) patterns).
Proof.
  intros Hsw sorted.
  assert (Hs : StronglySorted not_below sorted) by now apply sorted_desc_sorted.
  split; [reflexivity|]. split; [exact Hs|]. split.
  - rewrite <- (firstn_skipn 3 sorted) in Hs.
    apply (sorted_split_not_below _ _ Hs).
  - intros entry Hin. apply sorted_desc_ties.
    apply (strict_weak_incl float_gt _ (map snd patterns)); [|exact Hsw].
    intros k [<-|Hk]; [now apply in_map|exact Hk].
Qed.

Lemma X9_witness :
  let patterns := [("a", 0.25%float); ("b", 0.5%float); ("c", 0.25%float);
                   ("d", 1%float); ("e", 0%float)] in
  strict_weak float_gt (map snd patterns) /\
  _find_central_patterns ascii_interpreter patterns [] = ["d"; "b"; "a"] /\
  (forall top rest, In top (firstn 3 (Py.sorted_desc ascii_interpreter patterns)) ->
                    In rest (skipn 3 (Py.sorted_desc ascii_interpreter patterns)) ->
                    (snd top <? snd rest)%float = false).
Proof.
  cbv zeta.
  assert (Hsw : strict_weak float_gt
                  (map snd [("a", 0.25%float); ("b", 0.5%float); ("c", 0.25%float);
                            ("d", 1%float); ("e", 0%float)]))
    by (apply strict_weak_check_sound; vm_compute; reflexivity).
  split; [exact Hsw|]. split; [vm_compute; reflexivity|].
  apply (X9_central_patterns_are_top ascii_interpreter _ [] Hsw).
Defined.

Lemma get_in_nodup {V} (d : list (string * V)) (k : string) (v default : V) :
  NoDup (map fst d) -> In (k, v) d -> Py.get d k default = v.
Proof.
  induction d as [|[k' v'] rest IH]; simpl; [contradiction|].
  intros Hnd Hin. inversion Hnd as [|? ? Hk' Hrest]; subst.
  destruct Hin as [[= -> ->]|Hin]; [now rewrite String.eqb_refl|].
  destruct (String.eqb_spec k k') as [->|_]; [|now apply IH].
  exfalso. apply Hk'. apply in_map_iff. now exists (k', v).
Qed.

Lemma pattern_names_nodup : NoDup pattern_names.
Proof. repeat constructor; simpl; intuition discriminate. Qed.

(** X10: for every list of insights the network has exactly three central
    patterns, three different names of the seven, and they are the top
    three by score: their scores do not increase along the list, and no
    pattern left out scores more than a central one.  Without insights
    (all scores 0.0) they are the first three names of the dict. *)
Theorem X10_central_patterns_of_an_analysis (py : Py.Interpreter)
    (alg : Py.SumAlgorithm) (insights : list string) :
  let patterns := _seed_of_life_layer py insights in
  let score := fun name => Py.get patterns name 0%float in
  let central := central_patterns (_flower_of_life_layer py alg patterns) in
  (exists first second third,
      central = [first; second; third] /\
      (score second <=? score first)%float = true /\
      (score third <=? score second)%float = true) /\
  NoDup central /\
  incl central pattern_names /\
  (forall inside outside,
      In inside central -> In outside pattern_names -> ~ In outside central ->
      (score outside <=? score inside)%float = true) /\
  central_patterns (_flower_of_life_layer py alg (_seed_of_life_layer py [])) =
    ["growth_expansion"; "stability_structure"; "connection_relationship"].
Proof.
  intros patterns score central.
  assert (Hkeys : map fst patterns = pattern_names) by apply seed_keys.
  assert (Hnd : NoDup (map fst patterns))
    by (rewrite Hkeys; apply pattern_names_nodup).
  assert (Hperm : Permutation (Py.sorted_desc py patterns) patterns)
    by apply Py.sorted_desc_perm.
  assert (Hsorted : StronglySorted not_below (Py.sorted_desc py patterns))
    by apply sorted_desc_sorted, seed_strict_weak.
  assert (Hcentral : central = map fst (firstn 3 (Py.sorted_desc py patterns)))
    by reflexivity.
  rewrite <- (firstn_skipn 3 (Py.sorted_desc py patterns)) in Hsorted.
  destruct (sorted_split_not_below _ _ Hsorted) as [Htop Hcross].
  assert (Hentry : forall entry, In entry (Py.sorted_desc py patterns) ->
                     In (fst entry) pattern_names /\ is_ratio (snd entry) /\
                     score (fst entry) = snd entry).
  { intros [name v] Hin. apply (Permutation_in _ Hperm) in Hin.
    pose proof (seed_scores_are_ratios py insights) as H. rewrite Forall_forall in H.
    destruct (H _ Hin) as [H1 H2]. split; [exact H1|]. split; [exact H2|].
    now apply get_in_nodup. }
  assert (Hleb : forall x y, In x (Py.sorted_desc py patterns) ->
                             In y (Py.sorted_desc py patterns) ->
                             (snd x <? snd y)%float = false ->
                             (score (fst y) <=? score (fst x))%float = true).
  { intros x y Hx Hy Hlt.
    destruct (Hentry x Hx) as (_ & (nx & kx & Hnx & Hkx & Hvx) & ->).
    destruct (Hentry y Hy) as (_ & (ny & ky & Hny & Hky & Hvy) & ->).
    rewrite Hvx, Hvy in Hlt |- *.
    destruct (ratio_order nx kx ny ky Hnx Hny Hkx Hky) as [Hl _].
    destruct (ratio_order ny ky nx kx Hny Hnx Hky Hkx) as [_ ->].
    rewrite Hl in Hlt. apply Nat.ltb_ge in Hlt. now apply Nat.leb_le. }
  assert (Hlen : List.length (Py.sorted_desc py patterns) = 7%nat).
  { rewrite (Permutation_length Hperm), <- (length_map fst), Hkeys. reflexivity. }
  assert (Hnd' : NoDup (map fst (Py.sorted_desc py patterns)))
    by (apply (Permutation_NoDup (Permutation_map fst (Permutation_sym Hperm))), Hnd).
  rewrite <- (firstn_skipn 3 (Py.sorted_desc py patterns)), map_app in Hnd'.
  assert (Hin_top : forall e, In e (firstn 3 (Py.sorted_desc py patterns)) ->
                              In e (Py.sorted_desc py patterns))
    by (intros e He; now apply firstn_incl in He).
  split; [|split; [|split; [|split]]].
  - rewrite Hcentral.
    destruct (Py.sorted_desc py patterns) as [|a [|b [|c rest]]]; try discriminate.
    cbn [firstn map] in *. exists (fst a), (fst b), (fst c).
    split; [reflexivity|].
    inversion Htop as [|? ? Htop' Ha]; subst.
    inversion Htop' as [|? ? _ Hb]; subst.
    rewrite Forall_forall in Ha, Hb. split.
    + apply Hleb; simpl; auto. apply Ha. now left.
    + apply Hleb; simpl; auto. apply Hb. now left.
  - rewrite Hcentral. now apply NoDup_app_remove_r in Hnd'.
  - rewrite Hcentral. intros name Hin. apply in_map_iff in Hin.
    destruct Hin as (entry & <- & Hin). apply (Hentry entry), Hin_top, Hin.
  - intros inside outside Hi Ho Hno. rewrite Hcentral in Hi, Hno.
    apply in_map_iff in Hi. destruct Hi as (x & <- & Hx).
    rewrite <- Hkeys in Ho.
    apply (Permutation_in _ (Permutation_map fst (Permutation_sym Hperm))) in Ho.
    apply in_map_iff in Ho. destruct Ho as (y & <- & Hy).
    rewrite <- (firstn_skipn 3 (Py.sorted_desc py patterns)) in Hy.
    apply in_app_or in Hy. destruct Hy as [Hy|Hy];
      [exfalso; apply Hno; now apply in_map|].
    apply Hleb; [now apply Hin_top| |now apply Hcross].
    rewrite <- (firstn_skipn 3 (Py.sorted_desc py patterns)). apply in_or_app. now right.
  - rewrite flower_ordered by apply seed_strict_weak. reflexivity.
Qed.

(** ** Connections of an analysis *)

Lemma connection_facts (base va vb : float) :
  base = 0.8%float \/ base = 0.3%float -> is_ratio va -> is_ratio vb ->
  (va + vb = vb + va)%float /\
  is_finite (base * (va + vb) / 2)%float = true /\
  ((0 <=? base * (va + vb) / 2) && (base * (va + vb) / 2 <=? 0.8))%float = true.
Proof.
  intros Hbase (na & ka & Hna & Hka & ->) (nb & kb & Hnb & Hkb & ->).
  destruct Hbase as [-> | ->], Hna as [-> | ->], Hnb as [-> | ->];
    do 6 (try destruct ka as [|ka]); try lia;
    do 6 (try destruct kb as [|kb]); try lia;
    vm_compute; repeat split.
Qed.

Lemma seed_get_is_ratio (py : Py.Interpreter) (insights : list string) (name : string) :
  is_ratio (Py.get (_seed_of_life_layer py insights) name 0%float).
Proof.
  destruct (get_cases (_seed_of_life_layer py insights) name 0%float) as [->|Hin].
  - exists 4%nat, 0%nat. repeat split; [now left|lia].
  - pose proof (seed_scores_are_ratios py insights) as H. rewrite Forall_forall in H.
    apply (H _ Hin).
Qed.

(** X11: in the network of any list of insights the connection strength
    is symmetric, strength(A, B) = strength(B, A), and a finite double in
    [0, 0.8], for any two names; between two names that are not keys of
    the score map it is 0.0. *)
Theorem X11_connections_symmetric_and_bounded (py : Py.Interpreter) (insights : list string) (a b : string) :
  let patterns := _seed_of_life_layer py insights in
  let strength := _calculate_connection_strength a b patterns in
  strength = _calculate_connection_strength b a patterns /\
  is_finite strength = true /\
  ((0 <=? strength) && (strength <=? 0.8))%float = true /\
  (Py.has_key patterns a = false -> Py.has_key patterns b = false ->
   strength = 0%float).
Proof.
  intros patterns strength. unfold strength, _calculate_connection_strength.
  set (base := if pair_in (a, b) complementary_pairs || pair_in (b, a) complementary_pairs
               then 0.8%float else 0.3%float).
  assert (Hbase : base = 0.8%float \/ base = 0.3%float)
    by (unfold base; destruct (_ || _); auto).
  rewrite (orb_comm (pair_in (b, a) complementary_pairs)). fold base. cbv zeta.
  destruct (connection_facts base _ _ Hbase
              (seed_get_is_ratio py insights a) (seed_get_is_ratio py insights b))
    as (Hcomm & Hfin & Hbound).
  fold patterns in Hcomm, Hfin, Hbound.
  split; [now rewrite Hcomm|]. split; [exact Hfin|]. split; [exact Hbound|].
  intros Ha Hb. rewrite (get_without_key _ _ _ Ha), (get_without_key _ _ _ Hb).
  destruct Hbase as [-> | ->]; reflexivity.
Qed.

Lemma densities_bounded (alg : Py.SumAlgorithm) :
  forallb (fun themes =>
             let d := network_density (network_themes alg themes) in
             is_finite d && (0 <=? d)%float && (d <=? 0.8)%float)
          possible_themes = true.
Proof. destruct alg; vm_compute; reflexivity. Qed.

(** X12: for every query the network density is a finite double in
    [0, 0.8], and the network has its 42 connections. *)
Theorem X12_density_of_an_analysis (py : Py.Interpreter)
    (alg : Py.SumAlgorithm) (C : Type) (query : string) (context : list (string * C)) :
  let network := network_of py alg query context in
  is_finite (network_density network) = true /\
  (0 <=? network_density network)%float = true /\
  (network_density network <=? 0.8)%float = true /\
  List.length (connections network) = 42%nat.
Proof.
  intros network.
  pose proof (densities_bounded alg) as H. rewrite forallb_forall in H.
  specialize (H _ (extract_themes_possible py query)). cbv zeta in H.
  rewrite <- (network_of_themes py alg C query context) in H. fold network in H.
  apply andb_true_iff in H. destruct H as [H H3].
  apply andb_true_iff in H. destruct H as [H1 H2].
  repeat (split; [assumption|]).
  unfold network, network_of, _flower_of_life_layer. cbn [connections].
  unfold all_connections. rewrite seed_keys. reflexivity.
Qed.

(** ** Risks and recommendations *)

Definition risk_table : list (string * string) :=
  [ ("action_focus", "Lacks clear action plan");
    ("stability_foundation", "High instability risk");
    ("clarity_logic", "Unclear implementation path");
    ("adaptability_empathy", "Inflexible to changes");
    ("purpose_potential", "Limited long-term potential") ].

Definition recommendation_table : list (string * string) :=
  [ ("action_focus", "Define clearer action steps");
    ("stability_foundation", "Strengthen foundational elements");
    ("clarity_logic", "Improve plan clarity and logic");
    ("adaptability_empathy", "Increase flexibility and consideration of impacts");
    ("purpose_potential", "Enhance long-term strategic alignment") ].

(** The messages of the dimensions that score below [bound], in table
    order, or the fallback alone. *)
Definition threshold_report (bound : float) (table : list (string * string))
    (fallback : string) (scores : list (string * float)) : list string :=
  match map snd (filter (fun km => (Py.get scores (fst km) 0 <? bound)%float) table) with
  | [] => [fallback]
  | messages => messages
  end.

Lemma identify_risks_eq (scores : list (string * float)) :
  _identify_risks scores =
  threshold_report 0.3 risk_table "Low to moderate risks identified" scores.
Proof.
  unfold _identify_risks, append_if_below, threshold_report, risk_table.
  cbn [filter map fst snd].
  destruct (Py.get scores "action_focus" 0 <? 0.3)%float,
           (Py.get scores "stability_foundation" 0 <? 0.3)%float,
           (Py.get scores "clarity_logic" 0 <? 0.3)%float,
           (Py.get scores "adaptability_empathy" 0 <? 0.3)%float,
           (Py.get scores "purpose_potential" 0 <? 0.3)%float; reflexivity.
Qed.

Lemma generate_recommendations_eq (scores : list (string * float)) :
  _generate_recommendations scores =
  threshold_report 0.7 recommendation_table "Well-balanced approach" scores.
Proof.
  unfold _generate_recommendations, append_if_below, threshold_report,
    recommendation_table.
  cbn [filter map fst snd].
  destruct (Py.get scores "action_focus" 0 <? 0.7)%float,
           (Py.get scores "stability_foundation" 0 <? 0.7)%float,
           (Py.get scores "clarity_logic" 0 <? 0.7)%float,
           (Py.get scores "adaptability_empathy" 0 <? 0.7)%float,
           (Py.get scores "purpose_potential" 0 <? 0.7)%float; reflexivity.
Qed.

Lemma nodup_snd_injective {A B} (table : list (A * B)) (k k' : A) (m : B) :
  NoDup (map snd table) -> In (k, m) table -> In (k', m) table -> k = k'.
Proof.
  induction table as [|[k0 m0] rest IH]; simpl; [contradiction|].
  intros Hnd H1 H2. inversion Hnd as [|? ? Hm0 Hrest]; subst.
  destruct H1 as [H1|H1], H2 as [H2|H2]; auto.
  - congruence.
  - injection H1 as -> ->. exfalso. apply Hm0. apply in_map_iff. now exists (k', m).
  - injection H2 as -> ->. exfalso. apply Hm0. apply in_map_iff. now exists (k, m).
Qed.

Lemma threshold_report_facts (bound : float) (table : list (string * string))
    (fallback : string) (scores : list (string * float)) :
  NoDup (fallback :: map snd table) ->
  let report := threshold_report bound table fallback scores in
  report <> [] /\
  NoDup report /\
  (List.length report <= Nat.max 1 (List.length table))%nat /\
  (forall key message,
      In (key, message) table ->
      (In message report <-> (Py.get scores key 0 <? bound)%float = true)) /\
  (In fallback report <->
   forall key message, In (key, message) table ->
                       (Py.get scores key 0 <? bound)%float = false) /\
  (report = [fallback] \/ In report (sublists (map snd table))).
Proof.
  intros Hnd report. inversion Hnd as [|? ? Hfb Hmsgs]; subst.
  set (below := fun km : string * string => (Py.get scores (fst km) 0 <? bound)%float).
  assert (Hhit : forall message,
             In message (map snd (filter below table)) <->
             exists key, In (key, message) table /\
                         (Py.get scores key 0 <? bound)%float = true).
  { intros message. rewrite in_map_iff. split.
    - intros ([key m] & <- & Hin). apply filter_In in Hin. now exists key.
    - intros (key & Hin & Hb). exists (key, message). split; [reflexivity|].
      now apply filter_In. }
  assert (Hsub : In (map snd (filter below table)) (sublists (map snd table)))
    by apply sublists_filter.
  assert (Hnd' : NoDup (map snd (filter below table))) by now apply filter_map_nodup.
  assert (Hlen : (List.length (map snd (filter below table)) <= List.length table)%nat)
    by (rewrite length_map; apply filter_length_le).
  unfold report, threshold_report. fold below.
  destruct (map snd (filter below table)) as [|m ms] eqn:Hms.
  - split; [discriminate|]. split; [repeat constructor; simpl; tauto|].
    split; [cbn [List.length]; lia|]. split; [|split; [|now left]].
    + intros key message Hin. split.
      * intros [<-|[]]. exfalso. apply Hfb. apply in_map_iff. now exists (key, fallback).
      * intros Hb. exfalso. apply (proj2 (Hhit message)). now exists key.
    + split; [|intros _; now left]. intros _ key message Hin.
      destruct (Py.get scores key 0 <? bound)%float eqn:Hb; [|reflexivity].
      exfalso. apply (proj2 (Hhit message)). now exists key.
  - split; [discriminate|]. split; [exact Hnd'|]. split; [lia|].
    split; [|split; [|now right]].
    + intros key message Hin. rewrite Hhit. split.
      * intros (key' & Hin' & Hb).
        now rewrite (nodup_snd_injective table key key' message Hmsgs Hin Hin').
      * intros Hb. now exists key.
    + split.
      * intros Hin. exfalso. apply Hfb. apply Hhit in Hin.
        destruct Hin as (key & Hin & _). apply in_map_iff. now exists (key, fallback).
      * intros Hnone. exfalso.
        assert (Hm : In m (m :: ms)) by now left.
        apply Hhit in Hm. destruct Hm as (key & Hin & Hb).
        now rewrite (Hnone key m Hin) in Hb.
Qed.

(** X13: for any score dict, [_generate_recommendations] is never empty
    and never repeats a message; it holds the message of a dimension
    exactly when that dimension scores below 0.7 (a missing dimension
    counting as 0), in the fixed order of the five dimensions, and the
    fallback "Well-balanced approach" exactly when no dimension does.  On
    an empty dict all five recommendations are given. *)
Theorem X13_recommendations_characterised (scores : list (string * float)) :
  let recs := _generate_recommendations scores in
  recs <> [] /\
  NoDup recs /\
  (List.length recs <= 5)%nat /\
  (forall key message,
      In (key, message) recommendation_table ->
      (In message recs <-> (Py.get scores key 0 <? 0.7)%float = true)) /\
  (In "Well-balanced approach" recs <->
   forall key message, In (key, message) recommendation_table ->
                       (Py.get scores key 0 <? 0.7)%float = false) /\
  (recs = ["Well-balanced approach"] \/
   In recs (sublists (map snd recommendation_table))) /\
  _generate_recommendations [] = map snd recommendation_table.
Proof.
  intros recs. unfold recs. rewrite generate_recommendations_eq.
  assert (Hnd : NoDup ("Well-balanced approach" :: map snd recommendation_table))
    by (repeat constructor; simpl; intuition discriminate).
  destruct (threshold_report_facts 0.7 recommendation_table "Well-balanced approach"
              scores Hnd) as (H1 & H2 & H3 & H4 & H5 & H6).
  repeat (split; [assumption|]). reflexivity.
Qed.

(** X14: for any score dict, [_identify_risks] is never empty and never
    repeats a message; it holds the message of a dimension exactly when
    that dimension scores below 0.3 (a missing dimension counting as 0),
    in the fixed order of the five dimensions, and the fallback "Low to
    moderate risks identified" exactly when no dimension does.  On an
    empty dict all five risks are reported. *)
Theorem X14_risks_characterised (scores : list (string * float)) :
  let found := _identify_risks scores in
  found <> [] /\
  NoDup found /\
  (List.length found <= 5)%nat /\
  (forall key message,
      In (key, message) risk_table ->
      (In message found <-> (Py.get scores key 0 <? 0.3)%float = true)) /\
  (In "Low to moderate risks identified" found <->
   forall key message, In (key, message) risk_table ->
                       (Py.get scores key 0 <? 0.3)%float = false) /\
  (found = ["Low to moderate risks identified"] \/
   In found (sublists (map snd risk_table))) /\
  _identify_risks [] = map snd risk_table.
Proof.
  intros found. unfold found. rewrite identify_risks_eq.
  assert (Hnd : NoDup ("Low to moderate risks identified" :: map snd risk_table))
    by (repeat constructor; simpl; intuition discriminate).
  destruct (threshold_report_facts 0.3 risk_table "Low to moderate risks identified"
              scores Hnd) as (H1 & H2 & H3 & H4 & H5 & H6).
  repeat (split; [assumption|]). reflexivity.
Qed.

(** ** The outcome of an analysis *)

Lemma decide_is_balanced (py : Py.Interpreter) (order : Py.SetOrder) (alg : Py.SumAlgorithm) (C : Type)
    (query : string) (context : list (string * C)) :
  decide py order alg query context =
  Some (evaluate alg
          (_generate_blueprint order "balanced" (network_of py alg query context) query)).
Proof.
  pose proof (balanced_wins_everywhere alg) as Hchk.
  rewrite forallb_forall in Hchk. specialize (Hchk _ (extract_themes_possible py query)).
  unfold balanced_wins_check in Hchk. cbv zeta in Hchk.
  repeat (apply andb_true_iff in Hchk; destruct Hchk as [Hchk _]).
  apply Nat.eqb_eq in Hchk.
  set (blueprint := fun s => _generate_blueprint order s (network_of py alg query context) query).
  change (decide py order alg query context)
    with (Py.max_by float_gt overall_score
            (map (evaluate alg) (map blueprint strategy_types))).
  unfold strategy_types at 1. cbn [map]. rewrite max_by_argmax.
  change (map overall_score _)
    with (map (fun s => overall_score (evaluate alg (blueprint s))) strategy_types).
  rewrite (map_ext _ (fun s => overall_score
                                 (evaluate alg
                                    (_generate_blueprint insertion_order s
                                       (network_themes alg (_extract_themes py query)) ""))))
    by (intros s; apply (evaluated_strategy_canonical py order alg C query context s)).
  rewrite Hchk. reflexivity.
Qed.

Lemma seed_central_three (py : Py.Interpreter) (alg : Py.SumAlgorithm) (insights : list string) :
  exists first second third,
    central_patterns (_flower_of_life_layer py alg (_seed_of_life_layer py insights)) =
      [first; second; third] /\
    NoDup [first; second; third] /\
    incl [first; second; third] pattern_names.
Proof.
  set (patterns := _seed_of_life_layer py insights).
  assert (Hperm : Permutation (Py.sorted_desc py patterns) patterns)
    by apply Py.sorted_desc_perm.
  assert (Hkeys : map fst (Py.sorted_desc py patterns) = map fst (Py.sorted_desc py patterns))
    by reflexivity.
  assert (Hp : Permutation (map fst (Py.sorted_desc py patterns)) pattern_names)
    by (rewrite <- (seed_keys py insights); now apply Permutation_map).
  assert (Hnd : NoDup (map fst (Py.sorted_desc py patterns)))
    by (apply (Permutation_NoDup (Permutation_sym Hp)), pattern_names_nodup).
  assert (Hlen : List.length (Py.sorted_desc py patterns) = 7%nat)
    by (rewrite <- (length_map fst), (Permutation_length Hp); reflexivity).
  change (central_patterns (_flower_of_life_layer py alg patterns))
    with (map fst (firstn 3 (Py.sorted_desc py patterns))).
  destruct (Py.sorted_desc py patterns) as [|a [|b [|c rest]]]; try discriminate.
  exists (fst a), (fst b), (fst c). split; [reflexivity|]. split.
  - cbn [map] in Hnd.
    change (fst a :: fst b :: fst c :: map fst rest)
      with ([fst a; fst b; fst c] ++ map fst rest) in Hnd.
    now apply NoDup_app_remove_r in Hnd.
  - intros name Hin. apply (Permutation_in _ Hp). cbn [map]. simpl in Hin. simpl. tauto.
Qed.

(** X15: every analysis has one of two outcomes.  The geometric balance
    is 0.7, 0.7, 1.0, 0.8 for action focus, stability, clarity and
    adaptability, and for purpose 0.9 when one of the two focus patterns
    is opportunity_potential or innovation_creativity and 0.6 otherwise;
    in the first case the recommendations are the fallback "Well-balanced
    approach" alone, in the second "Enhance long-term strategic alignment"
    alone. *)
Theorem X15_two_outcomes (py : Py.Interpreter)
    (order : Py.SetOrder) (alg : Py.SumAlgorithm) (C : Type)
    (query domain : string) (context : list (string * C)) :
  let focus := firstn 2 (central_patterns (network_of py alg query context)) in
  let promising :=
    Py.mem "opportunity_potential" focus || Py.mem "innovation_creativity" focus in
  exists fd,
    analyze py order alg query domain context = Some fd /\
    geometric_balance fd =
      [ ("action_focus", 0.7%float); ("stability_foundation", 0.7%float);
        ("clarity_logic", 1%float); ("adaptability_empathy", 0.8%float);
        ("purpose_potential", if promising then 0.9%float else 0.6%float) ] /\
    fd_recommendations fd =
      (if promising then ["Well-balanced approach"]
       else ["Enhance long-term strategic alignment"]).
Proof.
  intros focus promising.
  destruct (analysis_confidence_two_values py order alg C query context)
    as (best & Hbest & _ & Hclarity & _).
  rewrite decide_is_balanced in Hbest. injection Hbest as <-.
  unfold analyze. rewrite decide_is_balanced. eexists. split; [reflexivity|].
  cbn [fst _conscious_field_layer geometric_balance fd_recommendations].
  unfold evaluate in *. cbn [solution scores recommendations] in *. rewrite Hclarity.
  change (_evaluate_action_focus _) with 0.7%float.
  change (_evaluate_stability _) with 0.7%float.
  change (_evaluate_adaptability _) with 0.8%float.
  change (_evaluate_purpose _) with (if promising then 0.9%float else 0.6%float).
  split; [reflexivity|]. destruct promising; reflexivity.
Qed.

(** X16: the decision text is fixed by the domain and the two focus
    patterns.  Under "personal" and "ecological" it is the static
    template; under any other domain it is "Business strategy: Balanced
    approach focusing on A, B", where A and B are the first two of the
    three central patterns, two different names of the seven. *)
Theorem X16_decision_text (py : Py.Interpreter)
    (order : Py.SetOrder) (alg : Py.SumAlgorithm) (C : Type)
    (query domain : string) (context : list (string * C)) :
  exists fd first second third,
    analyze py order alg query domain context = Some fd /\
    central_patterns (network_of py alg query context) = [first; second; third] /\
    first <> second /\ In first pattern_names /\ In second pattern_names /\
    final_decision fd =
      (if String.eqb domain "personal"
       then "Personal decision: Consider life balance and long-term happiness"
       else if String.eqb domain "ecological"
       then "Ecological approach: Prioritize sustainability and system health"
       else "Business strategy: Balanced approach focusing on " ++ first ++ ", " ++ second)%string.
Proof.
  destruct (seed_central_three py alg (_vesica_piscis_layer py query context))
    as (first & second & third & Hcentral & Hnd & Hincl).
  fold (network_of py alg query context) in Hcentral.
  unfold analyze. rewrite decide_is_balanced.
  eexists. exists first, second, third. split; [reflexivity|]. split; [exact Hcentral|].
  split; [inversion Hnd as [|? ? Hf _]; subst; intros ->; apply Hf; now left|].
  split; [apply Hincl; now left|]. split; [apply Hincl; right; now left|].
  cbn [fst _conscious_field_layer final_decision _apply_domain_knowledge].
  unfold evaluate, _generate_blueprint. cbn [solution expected_outcome].
  rewrite Hcentral. cbn [firstn Py.get].
  destruct (String.eqb_spec domain "business") as [->|_]; [reflexivity|].
  destruct (String.eqb domain "personal"); [reflexivity|].
  destruct (String.eqb domain "ecological"); reflexivity.
Qed.

(** ** The audit line and the end of [process] *)

Lemma len_str_prefix (n : nat) (s : string) :
  Py.len (Py.str_prefix n s) = Nat.min n (Py.len s).
Proof.
  revert n. induction s as [|c s IH]; intros n; cbn [Py.str_prefix Py.len].
  - now rewrite Nat.min_0_r.
  - destruct (Py.is_continuation c) eqn:Hc.
    + cbn [Py.len]. rewrite Hc. apply IH.
    + destruct n as [|n]; [reflexivity|]. cbn [Py.len]. rewrite Hc, IH. reflexivity.
Qed.

(** The text that follows a code point boundary does not begin with a
    continuation byte. *)
Definition at_boundary (rest : string) : Prop :=
  match rest with
  | EmptyString => True
  | String c _ => Py.is_continuation c = false
  end.

Lemma str_prefix_split (n : nat) (s : string) :
  exists rest, s = (Py.str_prefix n s ++ rest)%string /\ at_boundary rest.
Proof.
  revert n. induction s as [|c s IH]; intros n; cbn [Py.str_prefix].
  - now exists "".
  - destruct (Py.is_continuation c) eqn:Hc.
    + destruct (IH n) as (rest & Hs & Hb). exists rest. split; [|exact Hb].
      cbn [append]. now rewrite <- Hs.
    + destruct n as [|n].
      * exists (String c s). split; [reflexivity|exact Hc].
      * destruct (IH n) as (rest & Hs & Hb). exists rest. split; [|exact Hb].
        cbn [append]. now rewrite <- Hs.
Qed.

Lemma str_prefix_all (n : nat) (s : string) :
  (Py.len s <= n)%nat -> Py.str_prefix n s = s.
Proof.
  revert n. induction s as [|c s IH]; intros n; cbn [Py.str_prefix Py.len];
    [reflexivity|].
  destruct (Py.is_continuation c); intros H.
  - now rewrite IH.
  - destruct n as [|n]; [lia|]. rewrite IH; [reflexivity|lia].
Qed.

Lemma len_app (a b : string) : Py.len (a ++ b) = (Py.len a + Py.len b)%nat.
Proof.
  induction a as [|c a IH]; cbn [append Py.len]; [reflexivity|].
  destruct (Py.is_continuation c); rewrite IH; reflexivity.
Qed.

(** X17: the line handed to the logger is "Learned from <domain>
    analysis: <excerpt>..." where the excerpt is the first 50 characters
    (code points) of the query, the whole query when it has no more: the
    query is the excerpt followed by a text that starts at a character
    boundary.  The line has 27 + len(domain) + min(50, len(query))
    characters, it does not depend on the decision, and layer 5 logs
    exactly this one line. *)
Theorem X17_audit_line
    (query domain : string) (decision other : EvaluatedSolution) :
  let line := _learn_from_analysis query decision domain in
  let excerpt := Py.str_prefix 50 query in
  line = ("Learned from " ++ domain ++ " analysis: " ++ excerpt ++ "...")%string /\
  Py.len excerpt = Nat.min 50 (Py.len query) /\
  (exists rest, query = (excerpt ++ rest)%string /\ at_boundary rest) /\
  ((Py.len query <= 50)%nat -> excerpt = query) /\
  Py.len line = (27 + Py.len domain + Nat.min 50 (Py.len query))%nat /\
  _learn_from_analysis query other domain = line /\
  snd (_conscious_field_layer decision query domain) = [line].
Proof.
  intros line excerpt. split; [reflexivity|].
  split; [apply len_str_prefix|]. split; [apply str_prefix_split|].
  split; [apply str_prefix_all|]. split; [|split; reflexivity].
  unfold line, _learn_from_analysis.
  rewrite !len_app, len_str_prefix.
  change (Py.len "Learned from ") with 13%nat.
  change (Py.len " analysis: ") with 11%nat.
  change (Py.len "...") with 3%nat. lia.
Qed.

(** X18: [process] never returns a result.  For every input the six
    layers complete and layer 5 logs its one line; then the first
    attribute read on the dict of layer 5, [wisdom.final_decision], raises
    [AttributeError].  The line and the error do not depend on the
    context, on the set order or on the summation algorithm. *)
Theorem X18_process_always_raises
    (py : Py.Interpreter) (order order' : Py.SetOrder) (alg alg' : Py.SumAlgorithm)
    (C C' : Type) (query domain : string)
    (context : list (string * C)) (context' : list (string * C')) :
  exists fd line,
    analyze py order alg query domain context = Some fd /\
    line = ("Learned from " ++ domain ++ " analysis: " ++ Py.str_prefix 50 query ++ "...")%string /\
    process py order alg query domain context =
      ([line], inl (Py.AttributeError "dict" "final_decision")) /\
    process py order' alg' query domain context' =
      ([line], inl (Py.AttributeError "dict" "final_decision")) /\
    forall result log,
      process py order alg query domain context <> (log, inr result).
Proof.
  destruct (decide_themes_total order alg (_extract_themes py query)) as [d Hd].
  rewrite <- (decide_from_themes py order alg C query context) in Hd.
  unfold analyze. rewrite Hd. eexists _, _. split; [reflexivity|].
  split; [reflexivity|]. rewrite !process_raises.
  split; [reflexivity|]. split; [reflexivity|]. intros result log H. discriminate H.
Qed.

(** ** What the blueprints hold *)

Lemma rev_dedup_nodup (xs : list string) : NoDup (rev (Py.dedup xs)).
Proof. apply NoDup_rev, dedup_nodup. Qed.

Lemma rev_dedup_in (xs : list string) (x : string) : In x (rev (Py.dedup xs)) <-> In x xs.
Proof. rewrite <- in_rev. apply dedup_in. Qed.

(** The set order that lists last occurrences first. *)
Definition reverse_order : Py.SetOrder :=
  {| Py.list_set := fun xs => rev (Py.dedup xs);
     Py.list_set_nodup := rev_dedup_nodup;
     Py.list_set_in := rev_dedup_in |}.

(** X19: the key actions are not determined by the inputs.  Whenever the
    pool of a blueprint (base actions and the actions of the central
    patterns) has more than five distinct actions, two admissible set
    orders list different key actions: the first action of the pool is
    kept by the first-occurrence order and dropped by the reverse one. *)
Theorem X19_key_actions_depend_on_set_order
    (strategy : string) (network : Network) (query : string) :
  let pool := action_pool strategy (central_patterns network) in
  (5 < List.length (Py.dedup pool))%nat ->
  exists action,
    In action pool /\
    In action (key_actions (_generate_blueprint insertion_order strategy network query)) /\
    ~ In action (key_actions (_generate_blueprint reverse_order strategy network query)).
Proof.
  intros pool Hlen. rewrite !key_actions_eq. fold pool.
  cbn [Py.list_set insertion_order reverse_order].
  pose proof (dedup_nodup pool) as Hnd.
  destruct (Py.dedup pool) as [|a rest] eqn:Hd; [simpl in Hlen; lia|].
  exists a. split; [apply dedup_in; rewrite Hd; now left|]. split; [now left|].
  cbn [rev]. cbn [List.length] in Hlen.
  rewrite firstn_app, length_rev.
  replace (5 - List.length rest)%nat with 0%nat by lia.
  change (firstn 0 [a]) with (@nil string). rewrite app_nil_r. intros Hin.
  apply firstn_incl, in_rev in Hin. inversion Hnd; contradiction.
Qed.

Lemma X19_witness :
  let network := @network_of unit ascii_interpreter Py.LeftFold "" [] in
  let pool := action_pool "balanced" (central_patterns network) in
  (5 < List.length (Py.dedup pool))%nat /\
  exists action,
    In action pool /\
    In action (key_actions (_generate_blueprint insertion_order "balanced" network "")) /\
    ~ In action (key_actions (_generate_blueprint reverse_order "balanced" network "")).
Proof.
  cbv zeta.
  assert (H : (5 < List.length
                     (Py.dedup (action_pool "balanced"
                                  (central_patterns (@network_of unit ascii_interpreter Py.LeftFold "" [])))))%nat)
    by (vm_compute; lia).
  split; [exact H|].
  apply (X19_key_actions_depend_on_set_order "balanced"
           (@network_of unit ascii_interpreter Py.LeftFold "" []) "" H).
Defined.

(** X20: for any network, any set order and either summation, the
    evaluation of the blueprint of each of the five strategies has the
    five dimension keys in their fixed order, every dimension score a
    finite double in [0, 1], and an overall score that is a finite double
    in [0.6, 0.83]. *)
Theorem X20_scores_in_range
    (order : Py.SetOrder) (alg : Py.SumAlgorithm) (network : Network) (query : string) :
  Forall
    (fun strategy =>
       let e := evaluate alg (_generate_blueprint order strategy network query) in
       map fst (scores e) =
         [ "action_focus"; "stability_foundation"; "clarity_logic";
           "adaptability_empathy"; "purpose_potential" ] /\
       Forall (fun kv => (is_finite (snd kv) && (0 <=? snd kv) && (snd kv <=? 1))%float = true)
              (scores e) /\
       is_finite (overall_score e) = true /\
       ((0.6 <=? overall_score e) && (overall_score e <=? 0.83))%float = true)
    strategy_types.
Proof.
  apply Forall_forall. intros strategy Hs.
  set (b := _generate_blueprint order strategy network query).
  assert (Hlen : (3 <= List.length (key_actions b) <= 5)%nat)
    by apply (generate_actions_bounds order strategy (central_patterns network) Hs).
  cbv zeta. unfold evaluate. cbn [scores overall_score map fst snd].
  split; [reflexivity|].
  generalize (clarity_values b Hlen) (purpose_values b).
  generalize (_evaluate_clarity b) (_evaluate_purpose b).
  intros c p Hc Hp. simpl In in Hc, Hp.
  unfold strategy_types in Hs. simpl In in Hs.
  destruct Hs as [<-|[<-|[<-|[<-|[<-|[]]]]]];
    destruct Hc as [<-|[<-|[<-|[]]]]; destruct Hp as [<-|[<-|[]]];
    destruct alg;
    (split; [repeat (apply Forall_cons; [cbn [snd]; vm_compute; reflexivity|]);
             apply Forall_nil
            |split; vm_compute; reflexivity]).
Qed.

Lemma list_set_nil (order : Py.SetOrder) : Py.list_set order [] = [].
Proof.
  destruct (Py.list_set order []) as [|x rest] eqn:H; [reflexivity|].
  exfalso. apply (proj1 (Py.list_set_in order [] x)). rewrite H. now left.
Qed.

(** X21: the blueprints use a network only through its central patterns:
    two networks with the same central patterns, whatever their nodes,
    connections and densities, and any two queries give the same five
    blueprints and the same selected solution. *)
Theorem X21_blueprints_use_central_patterns_only
    (order : Py.SetOrder) (alg : Py.SumAlgorithm)
    (network1 network2 : Network) (query1 query2 : string) :
  central_patterns network1 = central_patterns network2 ->
  _fruit_of_life_layer order network1 query1 = _fruit_of_life_layer order network2 query2 /\
  _metatrons_cube_layer alg (_fruit_of_life_layer order network1 query1) =
  _metatrons_cube_layer alg (_fruit_of_life_layer order network2 query2).
Proof.
  intros H.
  assert (Hf : _fruit_of_life_layer order network1 query1 =
               _fruit_of_life_layer order network2 query2)
    by (unfold _fruit_of_life_layer, _generate_blueprint; now rewrite H).
  split; [exact Hf|now rewrite Hf].
Qed.

Lemma X21_witness :
  let network1 := @network_of unit ascii_interpreter Py.LeftFold "cut risk" [] in
  let network2 :=
    {| nodes := []; connections := [];
       central_patterns := ["opportunity_potential"; "risk_challenge"; "growth_expansion"];
       network_density := 1%float |} in
  central_patterns network1 = central_patterns network2 /\
  _fruit_of_life_layer insertion_order network1 "cut risk" =
  _fruit_of_life_layer insertion_order network2 "" /\
  _metatrons_cube_layer Py.Neumaier (_fruit_of_life_layer insertion_order network1 "cut risk") =
  _metatrons_cube_layer Py.Neumaier (_fruit_of_life_layer insertion_order network2 "").
Proof.
  cbv zeta.
  assert (H : central_patterns (@network_of unit ascii_interpreter Py.LeftFold "cut risk" []) =
              ["opportunity_potential"; "risk_challenge"; "growth_expansion"])
    by (vm_compute; reflexivity).
  split; [exact H|].
  apply (X21_blueprints_use_central_patterns_only insertion_order Py.Neumaier
           (@network_of unit ascii_interpreter Py.LeftFold "cut risk" [])
           {| nodes := []; connections := [];
              central_patterns :=
                ["opportunity_potential"; "risk_challenge"; "growth_expansion"];
              network_density := 1%float |}
           "cut risk" "" H).
Defined.

(** X22: a strategy name outside the five known ones falls back
    throughout: its blueprint has the approach "Balanced approach" and the
    risk level "low", scores 0.5 for action focus, 0.9 for stability and
    0.5 for adaptability, and lists only actions of central patterns; on a
    network without central patterns it lists no action at all, its
    clarity is 0.0 and "Unclear implementation path" is its one risk. *)
Theorem X22_unknown_strategy_falls_back
    (order : Py.SetOrder) (alg : Py.SumAlgorithm)
    (name : string) (network : Network) (query : string) :
  Py.has_key base_actions name = false ->
  let b := _generate_blueprint order name network query in
  approach b = "Balanced approach" /\
  risk_level b = "low" /\
  _evaluate_action_focus b = 0.5%float /\
  _evaluate_stability b = 0.9%float /\
  _evaluate_adaptability b = 0.5%float /\
  (forall action, In action (key_actions b) ->
                  exists pattern, In pattern (central_patterns network) /\
                                  In action (Py.get pattern_actions pattern [])) /\
  (central_patterns network = [] ->
   key_actions b = [] /\
   _evaluate_clarity b = 0%float /\
   risks (evaluate alg b) = ["Unclear implementation path"]).
Proof.
  intros Hkey b.
  assert (Hbase : Py.get base_actions name [] = []) by now apply get_without_key.
  unfold Py.has_key, base_actions in Hkey. cbn [existsb fst] in Hkey.
  rewrite !orb_false_iff in Hkey.
  destruct Hkey as (Hag & Hba & Hco & Hin & Hef & _).
  assert (Happroach : approach b = "Balanced approach")
    by (unfold b, _generate_blueprint, _get_strategy_approach; cbn [approach Py.get];
        now rewrite Hag, Hba, Hco, Hin, Hef).
  assert (Hrisk : risk_level b = "low")
    by (unfold b, _generate_blueprint; cbn [risk_level]; now rewrite Hba, Hag).
  assert (Hstrategy : strategy b = name) by reflexivity.
  split; [exact Happroach|]. split; [exact Hrisk|].
  split; [unfold _evaluate_action_focus; rewrite Hstrategy; now rewrite Hag, Hba|].
  split; [unfold _evaluate_stability; now rewrite Hrisk|].
  split; [unfold _evaluate_adaptability, Py.mem; rewrite Hstrategy; cbn [existsb];
          now rewrite Hba, Hin|].
  split.
  - intros action Ha. unfold b in Ha. rewrite key_actions_eq in Ha.
    apply firstn_incl, Py.list_set_in in Ha. unfold action_pool in Ha.
    rewrite Hbase in Ha. cbn [app] in Ha. apply in_concat in Ha.
    destruct Ha as (l & Hl & Ha). apply in_map_iff in Hl.
    destruct Hl as (p & <- & Hp). now exists p.
  - intros Hcentral.
    assert (Hnone : key_actions b = []).
    { unfold b. rewrite key_actions_eq, Hcentral. unfold action_pool.
      rewrite Hbase. cbn [map List.concat app]. now rewrite list_set_nil. }
    assert (Hclarity : _evaluate_clarity b = 0%float)
      by (unfold _evaluate_clarity; rewrite Hnone; reflexivity).
    split; [exact Hnone|]. split; [exact Hclarity|].
    unfold evaluate. cbn [risks]. rewrite Hclarity.
    assert (Ha : _evaluate_action_focus b = 0.5%float)
      by (unfold _evaluate_action_focus; rewrite Hstrategy; now rewrite Hag, Hba).
    assert (Hs : _evaluate_stability b = 0.9%float)
      by (unfold _evaluate_stability; now rewrite Hrisk).
    assert (Had : _evaluate_adaptability b = 0.5%float)
      by (unfold _evaluate_adaptability, Py.mem; rewrite Hstrategy; cbn [existsb];
          now rewrite Hba, Hin).
    rewrite Ha, Hs, Had.
    destruct (purpose_values b) as [<-|[<-|[]]]; reflexivity.
Qed.

Lemma X22_witness :
  Py.has_key base_actions "cautious" = false /\
  approach (_generate_blueprint insertion_order "cautious" bare_network "") =
    "Balanced approach" /\
  risks (evaluate Py.LeftFold (_generate_blueprint insertion_order "cautious" bare_network ""))
    = ["Unclear implementation path"].
Proof.
  split; [reflexivity|].
  destruct (X22_unknown_strategy_falls_back insertion_order Py.LeftFold "cautious"
              bare_network "" eq_refl) as (Ha & _ & _ & _ & _ & _ & Hbare).
  split; [exact Ha|]. apply Hbare. reflexivity.
Defined.

(** ** Across interpreter versions *)

Definition versions_agree_check (themes : list string) : bool :=
  let score := fun alg =>
    overall_score
      (evaluate alg
         (_generate_blueprint insertion_order "balanced" (network_themes alg themes) "")) in
  close_to ulp (score Py.LeftFold) (float_to_Q (score Py.Neumaier)).

Lemma versions_agree_everywhere : forallb versions_agree_check possible_themes = true.
Proof. vm_compute. reflexivity. Qed.

(** X23: the two summation algorithms of [sum] (CPython up to 3.11, and
    from 3.12 on) give the same decision text, risks, recommendations and
    geometric balance for every input, and confidences that differ by at
    most one unit in the last place. *)
Theorem X23_interpreter_versions_agree (py : Py.Interpreter)
    (order : Py.SetOrder) (C : Type)
    (query domain : string) (context : list (string * C)) :
  exists fd1 fd2,
    analyze py order Py.LeftFold query domain context = Some fd1 /\
    analyze py order Py.Neumaier query domain context = Some fd2 /\
    final_decision fd1 = final_decision fd2 /\
    fd_risks fd1 = fd_risks fd2 /\
    fd_recommendations fd1 = fd_recommendations fd2 /\
    geometric_balance fd1 = geometric_balance fd2 /\
    close_to ulp (confidence fd1) (float_to_Q (confidence fd2)) = true.
Proof.
  pose proof versions_agree_everywhere as Hchk. rewrite forallb_forall in Hchk.
  specialize (Hchk _ (extract_themes_possible py query)).
  unfold versions_agree_check in Hchk. cbv zeta beta in Hchk.
  assert (Hscore : forall alg,
             overall_score
               (evaluate alg
                  (_generate_blueprint order "balanced" (network_of py alg query context) query))
             = overall_score
                 (evaluate alg
                    (_generate_blueprint insertion_order "balanced"
                       (network_themes alg (_extract_themes py query)) "")))
    by (intros alg; apply (evaluated_strategy_canonical py order alg C query context)).
  rewrite <- !Hscore in Hchk.
  unfold analyze. rewrite !decide_is_balanced.
  eexists _, _. split; [reflexivity|]. split; [reflexivity|].
  cbn [fst _conscious_field_layer final_decision fd_risks fd_recommendations
       geometric_balance confidence].
  assert (Hbp : _generate_blueprint order "balanced"
                  (network_of py Py.LeftFold query context) query =
                _generate_blueprint order "balanced"
                  (network_of py Py.Neumaier query context) query)
    by (unfold _generate_blueprint, network_of, _flower_of_life_layer;
        cbn [central_patterns]; reflexivity).
  split; [unfold _apply_domain_knowledge; cbn [final_decision];
          unfold evaluate; cbn [solution]; now rewrite Hbp|].
  split; [unfold evaluate; cbn [risks]; now rewrite Hbp|].
  split; [unfold evaluate; cbn [recommendations]; now rewrite Hbp|].
  split; [unfold evaluate; cbn [scores]; now rewrite Hbp|].
  exact Hchk.
Qed.